(** * The question-answering engine of the Python EOL assistant

    A shallow embedding of [src/ai/qa_engine.py] (class [QAEngine]), of the
    clients of [src/ai/llm_client.py] it talks to, and of the records of
    [src/models.py], followed by the properties of the intent router, the
    deprecation matcher and the context assembler.

    Python [str] values are modelled by [string]: a character is an [ascii]
    read as the code point of the same number (U+0000 to U+00FF).  On that
    range [str.lower], [str.isspace] and the classes [\s], [\d] and [\w] of
    the [re] module are the functions below; [str.lower] maps the range into
    itself, so no operation of the engine leaves it. *)

From Stdlib Require Import Bool Arith NArith List String Ascii Lia.
From Stdlib Require Import Sorting.Permutation Sorting.Sorted DecimalString.
Import ListNotations.
Local Open Scope list_scope.
Local Open Scope string_scope.

(* ------------------------------------------------------------------ *)
(** ** Characters and strings, as Python sees them *)

Module PyStr.

Definition between (lo hi : N) (c : ascii) : bool :=
  let n := N_of_ascii c in (N.leb lo n && N.leb n hi)%bool.

(** [str.lower] on one character: A-Z, and the capital letters of the
    Latin-1 supplement (U+00C0..U+00DE without the multiplication sign). *)
Definition char_lower (c : ascii) : ascii :=
  if (between 65 90 c || between 192 214 c || between 216 222 c)%bool
  then ascii_of_N (N_of_ascii c + 32)
  else c.

Fixpoint lower (s : string) : string :=
  match s with
  | EmptyString => EmptyString
  | String c s' => String (char_lower c) (lower s')
  end.

(** [str.isspace] on one character, which is also the class [\s]. *)
Definition is_space (c : ascii) : bool :=
  (between 9 13 c || between 28 32 c
   || N.eqb (N_of_ascii c) 133 || N.eqb (N_of_ascii c) 160)%bool.

(** The class [\d]: the only decimal digits below U+0100 are 0-9. *)
Definition is_digit (c : ascii) : bool := between 48 57 c.

(** The class [\w]: alphanumeric characters and the underscore. *)
Definition is_word (c : ascii) : bool :=
  (between 48 57 c || between 65 90 c || between 97 122 c
   || N.eqb (N_of_ascii c) 95
   || N.eqb (N_of_ascii c) 170 || between 178 179 c
   || N.eqb (N_of_ascii c) 181 || between 185 186 c || between 188 190 c
   || between 192 214 c || between 216 246 c || between 248 255 c)%bool.

(** The line feed, written [\n] in the source. *)
Definition nl : string := String (ascii_of_nat 10) EmptyString.

(** [s.startswith(p)], returning what follows [p]. *)
Fixpoint skip_prefix (p s : string) : option string :=
  match p with
  | EmptyString => Some s
  | String a p' =>
      match s with
      | EmptyString => None
      | String b s' => if Ascii.eqb a b then skip_prefix p' s' else None
      end
  end.

Definition startswith (p s : string) : bool :=
  match skip_prefix p s with Some _ => true | None => false end.

(** [t in s] for two strings. *)
Fixpoint contains (t s : string) : bool :=
  (startswith t s
   || match s with
      | EmptyString => false
      | String _ s' => contains t s'
      end)%bool.

(** The longest prefix of [s] whose characters satisfy [p], and the rest. *)
Fixpoint take_while (p : ascii -> bool) (s : string) : string :=
  match s with
  | EmptyString => EmptyString
  | String c s' => if p c then String c (take_while p s') else EmptyString
  end.

Fixpoint drop_while (p : ascii -> bool) (s : string) : string :=
  match s with
  | EmptyString => EmptyString
  | String c s' => if p c then drop_while p s' else s
  end.

Definition lstrip (s : string) : string := drop_while is_space s.

Fixpoint rstrip (s : string) : string :=
  match s with
  | EmptyString => EmptyString
  | String c s' =>
      match rstrip s' with
      | EmptyString => if is_space c then EmptyString else String c EmptyString
      | r => String c r
      end
  end.

(** [s.strip()] *)
Definition strip (s : string) : string := rstrip (lstrip s).

Definition cons_word (w : string) (ws : list string) : list string :=
  match w with EmptyString => ws | _ => w :: ws end.

(** The word that starts at the head of [s] and the words after it. *)
Fixpoint split_go (s : string) : string * list string :=
  match s with
  | EmptyString => (EmptyString, [])
  | String c s' =>
      let (w, ws) := split_go s' in
      if is_space c then (EmptyString, cons_word w ws) else (String c w, ws)
  end.

(** [s.split()]: the maximal runs of non-space characters. *)
Definition split (s : string) : list string :=
  let (w, ws) := split_go s in cons_word w ws.

(** [sep.join(l)] *)
Fixpoint join (sep : string) (l : list string) : string :=
  match l with
  | [] => EmptyString
  | [x] => x
  | x :: l' => x ++ sep ++ join sep l'
  end.

(** [x in l] for a list (or a set) of strings. *)
Definition mem (x : string) (l : list string) : bool :=
  existsb (String.eqb x) l.

(** [str(n)] for a length. *)
Definition str_of_nat (n : nat) : string :=
  NilEmpty.string_of_uint (Nat.to_uint n).

(** [re.search(p, s)] for a pattern whose match at a position is decided
    by [m] on the text from that position on: the leftmost position wins. *)
Fixpoint re_search {A : Type} (m : string -> option A) (s : string) : option A :=
  match m s with
  | Some x => Some x
  | None =>
      match s with
      | EmptyString => None
      | String _ s' => re_search m s'
      end
  end.

End PyStr.
Import PyStr.

(* ------------------------------------------------------------------ *)
(** ** The records of [src/models.py] *)

Record DeprecationInfo := {
  feature : string;
  version_deprecated : string;
  version_removed : option string;
  module : option string;
  description : string;
  replacement : option string;
  url : option string
}.

Record JiraTicket := {
  key : string;
  summary : string;
  status : string;
  ticket_description : string;
  assignee : option string
}.

Record BacklogTask := {
  title : string;
  task_description : string;
  source_file : string
}.

(** Python's [x or d] for a [str] and for an [Optional[str]]: the empty
    string and [None] are both false. *)
Definition truthy (s : string) : bool :=
  match s with EmptyString => false | _ => true end.

Definition or_str (s d : string) : string := if truthy s then s else d.

Definition or_opt (o : option string) (d : string) : string :=
  match o with Some s => or_str s d | None => d end.

(* ------------------------------------------------------------------ *)
(** ** [QAEngine._find_deprecations] *)

Module Matcher.

Inductive Mode := REMOVAL_LIST | FEATURE_SEARCH.

(** A match of [pending removal in python\s*(3\.\d+)] that starts at the
    head of [s]; the value is group 1.  [\s*] and [\d+] are greedy, and
    giving characters back cannot help either of them: what follows [\s*]
    is the digit 3, which is no space, and nothing follows [\d+]. *)
Definition match_removal_at (s : string) : option string :=
  match skip_prefix "pending removal in python" s with
  | None => None
  | Some r1 =>
      match skip_prefix "3." (drop_while is_space r1) with
      | None => None
      | Some r2 =>
          match take_while is_digit r2 with
          | EmptyString => None
          | ds => Some ("3." ++ ds)
          end
      end
  end.

(** [re.sub(r"[^a-z0-9_\.]+", " ", q)]: every maximal run of characters
    outside the class becomes one space. [in_run] tells that the
    character before belongs to such a run. *)
Definition is_token_char (c : ascii) : bool :=
  (between 97 122 c || between 48 57 c
   || N.eqb (N_of_ascii c) 95 || N.eqb (N_of_ascii c) 46)%bool.

Fixpoint sub_non_token (in_run : bool) (s : string) : string :=
  match s with
  | EmptyString => EmptyString
  | String c s' =>
      if is_token_char c then String c (sub_non_token false s')
      else if in_run then sub_non_token true s'
      else String " " (sub_non_token true s')
  end.

Definition stop_words : list string :=
  ["deprecation"; "deprecated"; "remove"; "removal"; "eol"].

Definition tokenize (q : string) : list string :=
  let needle := strip (sub_non_token false q) in
  filter (fun t => negb (mem t stop_words)) (split needle).

(** The inner function [score], closed over [tokens]. *)
Definition score (tokens : list string) (d : DeprecationInfo) : nat :=
  let hay :=
    lower (join " " [or_str (feature d) EmptyString;
                     or_opt (module d) EmptyString;
                     or_str (description d) EmptyString]) in
  fold_left
    (fun s t =>
       if negb (truthy t) then s
       else
         let s1 := if contains t hay then s + 2 else s in
         if (truthy (feature d) && contains t (lower (feature d)))%bool
         then s1 + 3 else s1)
    tokens 0.

(** [sorted(l, key=key, reverse=True)].  Python's sort is stable, also
    with [reverse=True]: of two elements with equal keys the one that
    comes first in [l] comes first in the result.  There is one such
    arrangement of [l], and insertion from the right computes it: a new
    element goes before the first element whose key is not larger. *)
Section Sorted.
Context {A : Type} (key : A -> nat).

Fixpoint insert_desc (x : A) (l : list A) : list A :=
  match l with
  | [] => [x]
  | y :: l' =>
      if Nat.ltb (key x) (key y) then y :: insert_desc x l' else x :: y :: l'
  end.

Definition sorted_desc (l : list A) : list A :=
  fold_right insert_desc [] l.
End Sorted.

Definition removed_is (target : string) (d : DeprecationInfo) : bool :=
  String.eqb (lower (or_opt (version_removed d) EmptyString)) (lower target).

Definition _find_deprecations (deprecations : list DeprecationInfo)
    (query : string) : Mode * option string * list DeprecationInfo :=
  let q := lower query in
  match re_search match_removal_at q with
  | Some target =>
      let hits := filter (removed_is target) deprecations in
      (REMOVAL_LIST, Some target, hits)
  | None =>
      let tokens := tokenize q in
      let ranked := sorted_desc (score tokens) deprecations in
      let hits := firstn 10 (filter (fun d => Nat.ltb 0 (score tokens d)) ranked) in
      (FEATURE_SEARCH, None, hits)
  end.

End Matcher.
Import Matcher.

(* ------------------------------------------------------------------ *)
(** ** Calls to the outside: results, exceptions and the call log

    The engine calls the text generator and the two connectors; each call
    either returns or raises, and [answer_query] has no [try], so the first
    exception ends it.  A computation is the list of the calls it made, in
    order, and its outcome. *)

Module Eff.

Inductive result (A : Type) : Type :=
| Ok (a : A)
| Raise (e : string).
Arguments Ok {A} a.
Arguments Raise {A} e.

Inductive Call : Type :=
| GenerateResponse (prompt : string) (system_instruction : option string)
| GetTickets (status : option string)
| GetTicket (key : string)
| GetBacklogTasks.

Definition M (A : Type) : Type := (list Call * result A)%type.

Definition ret {A : Type} (a : A) : M A := ([], Ok a).

Definition bind {A B : Type} (m : M A) (f : A -> M B) : M B :=
  match m with
  | (log, Raise e) => (log, Raise e)
  | (log, Ok a) => let (log', r) := f a in ((log ++ log')%list, r)
  end.

(** One call to a collaborator, with what it answered. *)
Definition call {A : Type} (c : Call) (r : result A) : M A := ([c], r).

Definition calls {A : Type} (m : M A) : list Call := fst m.
Definition outcome {A : Type} (m : M A) : result A := snd m.

End Eff.
Import Eff.

Notation "x <- m ;; k" := (bind m (fun x => k))
  (at level 61, m at next level, right associativity).

(* ------------------------------------------------------------------ *)
(** ** The text generators: [src/ai/llm_client.py] and [adk_app/agent.py] *)

(** What a call of [generate_response] hands back. The method is
    declared to return a [str], and nothing checks it: a client may hand
    back another object, which is given here by the name of its type and
    by its [str()]. Such an object has no method [strip]: it is a JSON
    value that is no string ([None], a number, a truth value, a list or
    a dictionary). *)
Inductive Reply : Type :=
| Text (s : string)
| Object (type_name rendering : string).

(** The [str(e)] of the [AttributeError] that a method call on an object
    without this method raises. *)
Definition no_attribute (type_name attribute : string) : string :=
  "'" ++ type_name ++ "' object has no attribute '" ++ attribute ++ "'".

(** The abstract class [LLMClient]. *)
Record LLMClient := {
  generate_response : string -> option string -> result Reply
}.

(** [if system_instruction:] is false for [None] and for the empty string. *)
Definition given (system_instruction : option string) : option string :=
  match system_instruction with
  | Some s => if truthy s then Some s else None
  | None => None
  end.

Module Clients.
Section Transport.
(** [requests.post(url, json=payload)] with [raise_for_status], [json()]
    and the [get] of the field, by the endpoint: the arguments are the
    URL, the model and the text sent; the value is what the reply holds
    in the field read ([response], or [content] of [message]), a string
    or any other JSON value, and [None] when the field is absent;
    [Raise e] stands for an exception [e] of any of these steps, given
    by its [str(e)]. *)
Variable post_generate : string -> string -> string -> result (option Reply).
Variable post_chat : string -> string -> string -> string -> result (option Reply).
(** [generate_content] of the two Gemini libraries with the [text] of
    the response: from one prompt, and from a list of user messages. *)
Variable generate_content : string -> result string.
Variable models_generate_content : string -> list string -> result (option string).

(** [OllamaClient.generate_response]: the field is returned as it was
    read, and the empty string when the reply has none. *)
Definition OllamaClient (model base_url : string) : LLMClient :=
  {| generate_response := fun prompt system_instruction =>
       let url := base_url ++ "/api/generate" in
       let full_prompt :=
         match given system_instruction with
         | Some si => "System: " ++ si ++ nl ++ nl ++ "User: " ++ prompt
         | None => prompt
         end in
       match post_generate url model full_prompt with
       | Ok response => Ok (match response with Some v => v | None => Text EmptyString end)
       | Raise e => Ok (Text ("Error calling Ollama: " ++ e))
       end |}.

(** [GeminiClient.generate_response] *)
Definition GeminiClient : LLMClient :=
  {| generate_response := fun prompt system_instruction =>
       let full_prompt :=
         match given system_instruction with
         | Some si => si ++ nl ++ nl ++ prompt
         | None => prompt
         end in
       match generate_content full_prompt with
       | Ok text => Ok (Text text)
       | Raise e => Ok (Text ("Error calling Gemini: " ++ e))
       end |}.

(** [MockLLMClient.generate_response] *)
Definition MockLLMClient : LLMClient :=
  {| generate_response := fun prompt _ =>
       if (contains "INTENT:" prompt || contains "Classify" prompt)%bool
       then Ok (Text "GENERAL")
       else Ok (Text "I am a mock LLM response.") |}.

(** [ConcreteLLMClient.generate_response] of [adk_app/agent.py]: no
    [try] here, an exception of the transport leaves the method, and so
    does the one of [strip] on a content that is no string. *)
Definition ConcreteLLMClient (local : bool) (ollama_base model : string) : LLMClient :=
  {| generate_response := fun prompt system_instruction =>
       if local then
         match post_chat (ollama_base ++ "/api/chat") model
                 (match system_instruction with Some s => s | None => EmptyString end)
                 prompt with
         | Ok None => Ok (Text (strip EmptyString))
         | Ok (Some (Text content)) => Ok (Text (strip content))
         | Ok (Some (Object type_name _)) => Raise (no_attribute type_name "strip")
         | Raise e => Raise e
         end
       else
         let contents :=
           match given system_instruction with
           | Some si => ["[SYSTEM]" ++ nl ++ si; prompt]
           | None => [prompt]
           end in
         match models_generate_content model contents with
         | Ok text => Ok (Text (strip (or_opt text EmptyString)))
         | Raise e => Raise e
         end |}.
End Transport.
End Clients.

(* ------------------------------------------------------------------ *)
(** ** The connectors, as [QAEngine] uses them *)

Record JiraConnector := {
  get_tickets : option string -> result (list JiraTicket);
  get_ticket : string -> result (option JiraTicket)
}.

Record GDriveConnector := {
  get_backlog_tasks : result (list BacklogTask)
}.

Record QAEngine := {
  jira_conn : JiraConnector;
  gdrive_conn : GDriveConnector;
  llm_client : LLMClient;
  deprecations : list DeprecationInfo
}.

(* ------------------------------------------------------------------ *)
(** ** [QAEngine.answer_query], step 1: the intent *)

Module Router.

Definition valid_intents : list string :=
  ["DEPRECATION_INFO"; "DEPRECATION_GAP"; "JIRA_LIST"; "JIRA_DETAIL";
   "JIRA_COUNT"; "BACKLOG_LIST"; "BACKLOG_PICKUP"; "GENERAL"].

Definition system_instruction : string :=
  "You are a helpful assistant for a Python EOL management project. "
  ++ "Classify the user's query into one of the following INTENTS:" ++ nl
  ++ "- DEPRECATION_INFO: Questions about Python features, deprecations, or removals." ++ nl
  ++ "- DEPRECATION_GAP: Requests to find deprecations that happened but are NOT in the backlog (e.g. 'new proposals', 'not in backlog')." ++ nl
  ++ "- JIRA_LIST: Requests to list Jira tickets (e.g., 'show me tickets', 'list items')." ++ nl
  ++ "- JIRA_DETAIL: Requests for details about a specific Jira ticket (e.g., SCRUM-123, 'content of ticket')." ++ nl
  ++ "- JIRA_COUNT: Requests to count tickets in a certain status (e.g., 'how many testing tickets')." ++ nl
  ++ "- BACKLOG_LIST: Requests to list files in the Google Drive backlog." ++ nl
  ++ "- BACKLOG_PICKUP: Requests to find backlog items not yet in Jira." ++ nl
  ++ "- GENERAL: General greeting or queries not related to the above." ++ nl ++ nl
  ++ "If the query contains a ticket key like SCRUM-123, prefer JIRA_DETAIL." ++ nl
  ++ "Respond ONLY with the INTENT name.".

Definition classify_prompt (query : string) : string :=
  "Classify this query: '" ++ query ++ "'".

Definition deprecation_keywords : list string :=
  ["deprecation"; "deprecated"; "pending removal"; "removal"; "eol"].

(** A match of [\bpython\s*3\.\d+\b] at the head of [s], where [prev] is
    the character before it.  The letter p and a digit are word
    characters, so the first [\b] asks for no word character before, and
    the last one for none after the digits; [\d+] giving digits back
    would leave a digit there. *)
Definition match_python_version_at (prev : option ascii) (s : string) : bool :=
  (negb (match prev with Some c => is_word c | None => false end)
   && match skip_prefix "python" s with
      | None => false
      | Some r1 =>
          match skip_prefix "3." (drop_while is_space r1) with
          | None => false
          | Some r2 =>
              (truthy (take_while is_digit r2)
               && match drop_while is_digit r2 with
                  | EmptyString => true
                  | String c _ => negb (is_word c)
                  end)%bool
          end
      end)%bool.

(** [re.search(r"\bpython\s*3\.\d+\b", s)], as a truth value. *)
Fixpoint search_python_version (prev : option ascii) (s : string) : bool :=
  (match_python_version_at prev s
   || match s with
      | EmptyString => false
      | String c s' => search_python_version (Some c) s'
      end)%bool.

(** "Clean up intent": the first canonical name, in the order of
    [valid_intents], that occurs in the reply, and [found_intent]. *)
Definition clean_up (intent : string) : string * bool :=
  match find (fun valid => contains valid intent) valid_intents with
  | Some valid => (valid, true)
  | None => (intent, false)
  end.

(** "Strong override: deprecation-related questions should not depend on
    LLM intent". *)
Definition deprecation_override (msg_lower intent : string) : string :=
  if (existsb (fun k => contains k msg_lower) deprecation_keywords
      || search_python_version None msg_lower)%bool
  then "DEPRECATION_INFO" else intent.

(** "Jira overrides (ticket key should win)": an [if] with an [elif]. *)
Definition jira_override (msg_lower intent : string) : string :=
  if contains "scrum-" msg_lower then "JIRA_DETAIL"
  else if (contains "how many" msg_lower && contains "ticket" msg_lower)%bool
       then "JIRA_COUNT"
       else intent.

(** Lines 104 to 132 of [answer_query], from the generator's reply on:
    the value is the variable [intent] as the retrieval step reads it. *)
Definition route (query reply : string) : string :=
  let intent := strip reply in
  let '(intent, found_intent) := clean_up intent in
  (* Heuristic overrides for robustness *)
  let msg_lower := lower query in
  let intent := deprecation_override msg_lower intent in
  let intent := jira_override msg_lower intent in
  if (negb found_intent && negb (mem intent valid_intents))%bool
  then "GENERAL" else intent.

(** Step 1 of [answer_query]: one call to the generator, then [route];
    [strip] is called on what the generator handed back, whatever it
    is. *)
Definition classify (self : QAEngine) (query : string) : M string :=
  reply <- call (GenerateResponse (classify_prompt query) (Some system_instruction))
             (generate_response (llm_client self) (classify_prompt query)
                (Some system_instruction)) ;;
  match reply with
  | Text reply => ret (route query reply)
  | Object type_name _ => ([], Raise (no_attribute type_name "strip"))
  end.

End Router.
Import Router.

(* ------------------------------------------------------------------ *)
(** ** [QAEngine.answer_query], step 2: the context *)

Module Assembler.

(** The text an f-string puts for an [Optional[str]] field. *)
Definition fmt_opt (o : option string) : string :=
  match o with Some s => s | None => "None" end.

(** [QAEngine._format_deprecations_context] *)
Definition _format_deprecations_context (mode : Mode) (target : option string)
    (hits : list DeprecationInfo) : string :=
  match mode with
  | REMOVAL_LIST =>
      match hits with
      | [] => "No deprecations found pending removal in Python " ++ fmt_opt target ++ "."
      | _ =>
          "Deprecations pending removal in Python " ++ fmt_opt target ++ ":" ++ nl
          ++ join nl
               (map (fun d =>
                       rstrip ("- " ++ feature d
                               ++ " | Deprecated: " ++ or_str (version_deprecated d) "N/A"
                               ++ " | Module: " ++ or_opt (module d) "N/A" ++ nl
                               ++ "  " ++ or_str (description d) EmptyString ++ nl
                               ++ "  " ++ or_opt (url d) EmptyString))
                    hits)
      end
  | FEATURE_SEARCH =>
      match hits with
      | [] => "No matching deprecations found in the official list."
      | _ =>
          "Matching deprecations:" ++ nl
          ++ join nl
               (map (fun d =>
                       rstrip ("- " ++ feature d
                               ++ " (Deprecated: " ++ or_str (version_deprecated d) "N/A"
                               ++ ", Removed: " ++ or_opt (version_removed d) "N/A" ++ ")"
                               ++ " | Module: " ++ or_opt (module d) "N/A" ++ nl
                               ++ "  " ++ or_str (description d) EmptyString ++ nl
                               ++ "  " ++ or_opt (url d) EmptyString))
                    hits)
      end
  end.

(** The set comprehension [{t.title.lower() for t in backlog_tasks}], by
    an enumeration of its elements.  The loop over it only asks whether
    some element contains the feature, which no order changes. *)
Definition backlog_titles (backlog_tasks : list BacklogTask) : list string :=
  nodup string_dec (map (fun t => lower (title t)) backlog_tasks).

Definition is_in_backlog (titles : list string) (d : DeprecationInfo) : bool :=
  existsb (fun title => contains (lower (feature d)) title) titles.

Definition gap_items (deps : list DeprecationInfo) (backlog_tasks : list BacklogTask)
  : list DeprecationInfo :=
  filter (fun d => negb (is_in_backlog (backlog_titles backlog_tasks) d)) deps.

Definition gap_context (gaps : list DeprecationInfo) : string :=
  match gaps with
  | [] => "All deprecations seem to be represented in the backlog."
  | _ =>
      "Deprecations NOT found in Backlog:" ++ nl
      ++ join nl (map (fun d => "- " ++ feature d
                                ++ " (Deprecated: " ++ version_deprecated d ++ ")") gaps)
  end.

Definition list_context (tickets : list JiraTicket) : string :=
  match tickets with
  | [] => "No Jira tickets found."
  | _ =>
      "Jira Tickets:" ++ nl
      ++ join nl (map (fun t => key t ++ ": " ++ summary t ++ " (" ++ status t ++ ")") tickets)
  end.

Definition target_status (msg_lower : string) : option string :=
  if contains "testing" msg_lower then Some "Testing"
  else if contains "done" msg_lower then Some "Done"
  else if contains "progress" msg_lower then Some "In Progress"
  else if (contains "todo" msg_lower || contains "to do" msg_lower)%bool then Some "To Do"
  else None.

Definition count_context (target : option string) (tickets : list JiraTicket) : string :=
  let count := List.length tickets in
  let status_str := match given target with Some s => s | None => "Total" end in
  "Found " ++ str_of_nat count ++ " tickets with status '" ++ status_str ++ "'.".

(** A match of [scrum-(\d+)] at the head of [s]; the value is group 1. *)
Definition match_scrum_at (s : string) : option string :=
  match skip_prefix "scrum-" s with
  | None => None
  | Some r =>
      match take_while is_digit r with
      | EmptyString => None
      | ds => Some ds
      end
  end.

Definition ticket_details (ticket : JiraTicket) : string :=
  "Ticket Details:" ++ nl
  ++ "Key: " ++ key ticket ++ nl
  ++ "Summary: " ++ summary ticket ++ nl
  ++ "Status: " ++ status ticket ++ nl
  ++ "Description: " ++ ticket_description ticket ++ nl
  ++ "Assignee: " ++ fmt_opt (assignee ticket).

Definition not_found_context (key : string) : string :=
  "Ticket " ++ key ++ " not found.".

Definition no_key_context : string :=
  "Could not identify ticket key (SCRUM-XXX) in query.".

Definition backlog_context (tasks : list BacklogTask) : string :=
  match tasks with
  | [] => "Backlog is empty."
  | _ => "Backlog Files:" ++ nl ++ join nl (map title tasks)
  end.

Definition pickup_list (tasks : list BacklogTask) (tickets : list JiraTicket)
  : list BacklogTask :=
  let ticket_summaries := map (fun t => lower (summary t)) tickets in
  filter (fun t => negb (mem (lower (title t)) ticket_summaries)) tasks.

Definition pickup_context (pickup : list BacklogTask) : string :=
  match pickup with
  | [] => "Everything in backlog is already in Jira."
  | _ => "Items to Pickup (in Backlog but not Jira):" ++ nl ++ join nl (map title pickup)
  end.

(** Lines 135 to 233 of [answer_query]: the variable [context_data]. *)
Definition build_context (self : QAEngine) (intent query : string) : M string :=
  let msg_lower := lower query in
  if String.eqb intent "DEPRECATION_INFO" then
    let '(mode, target, hits) := _find_deprecations (deprecations self) query in
    ret (_format_deprecations_context mode target hits)
  else if String.eqb intent "DEPRECATION_GAP" then
    backlog_tasks <- call GetBacklogTasks (get_backlog_tasks (gdrive_conn self)) ;;
    ret (gap_context (gap_items (deprecations self) backlog_tasks))
  else if String.eqb intent "JIRA_LIST" then
    tickets <- call (GetTickets None) (get_tickets (jira_conn self) None) ;;
    ret (list_context tickets)
  else if String.eqb intent "JIRA_COUNT" then
    let target := target_status msg_lower in
    tickets <- call (GetTickets target) (get_tickets (jira_conn self) target) ;;
    ret (count_context target tickets)
  else if String.eqb intent "JIRA_DETAIL" then
    match re_search match_scrum_at msg_lower with
    | Some digits =>
        let key := "SCRUM-" ++ digits in
        ticket <- call (GetTicket key) (get_ticket (jira_conn self) key) ;;
        match ticket with
        | Some t => ret (ticket_details t)
        | None => ret (not_found_context key)
        end
    | None => ret no_key_context
    end
  else if String.eqb intent "BACKLOG_LIST" then
    tasks <- call GetBacklogTasks (get_backlog_tasks (gdrive_conn self)) ;;
    ret (backlog_context tasks)
  else if String.eqb intent "BACKLOG_PICKUP" then
    tasks <- call GetBacklogTasks (get_backlog_tasks (gdrive_conn self)) ;;
    tickets <- call (GetTickets None) (get_tickets (jira_conn self) None) ;;
    ret (pickup_context (pickup_list tasks tickets))
  else (* GENERAL *)
    ret EmptyString.

End Assembler.
Import Assembler.

(* ------------------------------------------------------------------ *)
(** ** [QAEngine.answer_query] *)

Definition final_system_prompt : string :=
  "You are the Python EOL Assistant. Answer the user's query using the provided CONTEXT DATA." ++ nl
  ++ "Rules:" ++ nl
  ++ "1. If the CONTEXT DATA contains the answer, use it." ++ nl
  ++ "2. If the query asks for deprecation info and the feature is NOT in 'Known Deprecations', say you don't have information about it. DO NOT hallucinate versions." ++ nl
  ++ "3. For counting requests, use the count provided in context." ++ nl
  ++ "4. Keep the answer concise and professional.".

Definition final_prompt (query context_data : string) : string :=
  "User Query: " ++ query ++ nl ++ nl ++ "CONTEXT DATA:" ++ nl ++ context_data.

Definition answer_query (self : QAEngine) (query : string) : M Reply :=
  intent <- classify self query ;;
  context_data <- build_context self intent query ;;
  call (GenerateResponse (final_prompt query context_data) (Some final_system_prompt))
    (generate_response (llm_client self) (final_prompt query context_data)
       (Some final_system_prompt)).

(** ** Fixtures: the connectors without credentials, and a small catalog *)

Module Fixtures.

Definition mock_tickets : list JiraTicket :=
  [ {| key := "SCRUM-1"; summary := "Deprecate old C API"; status := "Testing";
       ticket_description := "Task for SCRUM-1"; assignee := None |};
    {| key := "SCRUM-6"; summary := "Update documentation for ctypes"; status := "Done";
       ticket_description := "Task for SCRUM-6"; assignee := None |};
    {| key := "SCRUM-3"; summary := "Another testing task"; status := "Testing";
       ticket_description := "Task for SCRUM-3"; assignee := None |} ].

(** [JiraConnector] in mock mode. *)
Definition mock_jira : JiraConnector :=
  {| get_tickets := fun st =>
       match given st with
       | Some s => Ok (filter (fun t => String.eqb (lower (status t)) (lower s)) mock_tickets)
       | None => Ok mock_tickets
       end;
     get_ticket := fun k => Ok (find (fun t => String.eqb (key t) k) mock_tickets) |}.

(** [GDriveConnector] in mock mode. *)
Definition mock_gdrive : GDriveConnector :=
  {| get_backlog_tasks :=
       Ok [ {| title := "Deprecate old SSL"; task_description := "Remove SSL v2/v3 support";
               source_file := "ssl_notes.txt" |};
            {| title := "New deprecation for email module";
               task_description := "Deprecate old email formats";
               source_file := "email_notes.txt" |} ] |}.

(** A record of the catalog, deprecated since 3.9. *)
Definition dep (f : string) (removed : option string) (m : option string) (desc : string)
  : DeprecationInfo :=
  {| feature := f; version_deprecated := "3.9"; version_removed := removed;
     module := m; description := desc; replacement := None; url := None |}.

Definition catalog : list DeprecationInfo :=
  [ dep "asyncio.coroutine" (Some "3.15") (Some "asyncio") "the coroutine decorator";
    dep "smtpd module" (Some "3.12") None "smtpd is gone";
    dep "ssl.wrap" (Some "3.15") (Some "ssl") "wrap asyncio sockets";
    dep "typing.io" (Some "Future") None "typing" ].

(** [QAEngine(jira_conn, gdrive_conn, llm)] with both connectors in mock
    mode, once [fetch_deprecations] has returned [catalog]. *)
Definition engine (llm : LLMClient) : QAEngine :=
  {| jira_conn := mock_jira; gdrive_conn := mock_gdrive; llm_client := llm;
     deprecations := catalog |}.

(** A generator that answers every prompt with [reply]. *)
Definition constant_llm (reply : string) : LLMClient :=
  {| generate_response := fun _ _ => Ok (Text reply) |}.

End Fixtures.
Import Fixtures.

(** ** Runs on the fixtures *)

Module Runs.

Example tokenize_question :
  tokenize (lower "  Is ASYNCIO--deprecated?? typing.io  ") = ["is"; "asyncio"; "typing.io"].
Proof. reflexivity. Qed.

Example ranked_features :
  map feature (snd (_find_deprecations catalog "is asyncio deprecated? typing"))
  = ["asyncio.coroutine"; "typing.io"; "smtpd module"; "ssl.wrap"].
Proof. reflexivity. Qed.

Example python_version_needs_boundaries :
  route "does Python 3.12 work" "JIRA_LIST" = "DEPRECATION_INFO" /\
  route "does Python 3.12a work" "JIRA_LIST" = "JIRA_LIST" /\
  route "does cPython 3.12 work" "JIRA_LIST" = "JIRA_LIST".
Proof. repeat split. Qed.

Example count_testing_tickets :
  build_context (engine (constant_llm "JIRA_COUNT")) "JIRA_COUNT" "how many Testing tickets"
  = ([GetTickets (Some "Testing")], Ok "Found 2 tickets with status 'Testing'.").
Proof. reflexivity. Qed.

Example detail_of_ticket_6 :
  outcome (build_context (engine (constant_llm "JIRA_DETAIL")) "JIRA_DETAIL"
             "tell me about Scrum-6 please")
  = Ok ("Ticket Details:" ++ nl ++ "Key: SCRUM-6" ++ nl
        ++ "Summary: Update documentation for ctypes" ++ nl ++ "Status: Done" ++ nl
        ++ "Description: Task for SCRUM-6" ++ nl ++ "Assignee: None").
Proof. reflexivity. Qed.

Example answer_with_mock_client :
  outcome (answer_query (engine Clients.MockLLMClient) "list the SCRUM-3 ticket")
  = Ok (Text "I am a mock LLM response.") /\
  List.length (calls (answer_query (engine Clients.MockLLMClient) "list the SCRUM-3 ticket"))
  = 3.
Proof. split; reflexivity. Qed.

End Runs.

(* ================================================================== *)
(** * Properties *)

(** ** Strings *)

Module StrFacts.

(** Every character of [s] satisfies [p]. *)
Fixpoint all_chars (p : ascii -> bool) (s : string) : bool :=
  match s with
  | EmptyString => true
  | String c s' => (p c && all_chars p s')%bool
  end.

(** [s] does not start with a character that satisfies [p]. *)
Definition stops (p : ascii -> bool) (s : string) : Prop :=
  match s with
  | EmptyString => True
  | String c _ => p c = false
  end.

Lemma app_assoc (a b c : string) : (a ++ b) ++ c = a ++ b ++ c.
Proof. induction a as [|x a IH]; simpl; [reflexivity | now rewrite IH]. Qed.

Lemma app_nil_r (a : string) : a ++ EmptyString = a.
Proof. induction a as [|x a IH]; simpl; [reflexivity | now rewrite IH]. Qed.

Lemma length_app (a b : string) :
  String.length (a ++ b) = String.length a + String.length b.
Proof. induction a as [|x a IH]; simpl; [reflexivity | now rewrite IH]. Qed.

Lemma lower_app (a b : string) : lower (a ++ b) = lower a ++ lower b.
Proof. induction a as [|x a IH]; simpl; [reflexivity | now rewrite IH]. Qed.

Lemma skip_prefix_app (p s : string) : skip_prefix p (p ++ s) = Some s.
Proof.
  induction p as [|a p IH]; simpl; [reflexivity|].
  now rewrite Ascii.eqb_refl.
Qed.

Lemma skip_prefix_Some (p s r : string) : skip_prefix p s = Some r -> s = p ++ r.
Proof.
  revert s; induction p as [|a p IH]; intros s H; simpl in *.
  - now inversion H.
  - destruct s as [|b s]; [discriminate|].
    destruct (Ascii.eqb a b) eqn:E; [|discriminate].
    apply Ascii.eqb_eq in E; subst b. now rewrite (IH _ H).
Qed.

Lemma startswith_spec (p s : string) :
  startswith p s = true <-> exists r, s = p ++ r.
Proof.
  unfold startswith; split.
  - destruct (skip_prefix p s) as [r|] eqn:E; [|discriminate].
    intros _; exists r; now apply skip_prefix_Some.
  - intros [r ->]. now rewrite skip_prefix_app.
Qed.

(** [t in s] holds exactly when [s] is some text, [t], and some text. *)
Lemma contains_spec (t s : string) :
  contains t s = true <-> exists pre post, s = pre ++ t ++ post.
Proof.
  split.
  - induction s as [|c s IH]; simpl; rewrite orb_true_iff; intros [H|H].
    + apply startswith_spec in H as [r ->]. now exists EmptyString, r.
    + discriminate.
    + apply startswith_spec in H as [r ->]. now exists EmptyString, r.
    + destruct (IH H) as (pre & post & ->). now exists (String c pre), post.
  - intros (pre & post & ->).
    induction pre as [|c pre IH].
    + simpl. destruct (t ++ post) eqn:E; simpl; rewrite <- E;
        (rewrite (proj2 (startswith_spec t (t ++ post))); [reflexivity | now exists post]).
    + simpl. rewrite IH. apply orb_true_r.
Qed.

Lemma contains_lower_literal (k q : string) :
  (exists pre mid post, q = pre ++ mid ++ post /\ lower mid = k) ->
  contains k (lower q) = true.
Proof.
  intros (pre & mid & post & -> & <-).
  apply contains_spec. exists (lower pre), (lower post).
  now rewrite !lower_app.
Qed.

Lemma take_drop_while (p : ascii -> bool) (s : string) :
  s = take_while p s ++ drop_while p s.
Proof.
  induction s as [|c s IH]; simpl; [reflexivity|].
  destruct (p c); simpl; [now rewrite <- IH | reflexivity].
Qed.

Lemma all_take_while (p : ascii -> bool) (s : string) :
  all_chars p (take_while p s) = true.
Proof.
  induction s as [|c s IH]; simpl; [reflexivity|].
  destruct (p c) eqn:E; simpl; [now rewrite E | reflexivity].
Qed.

Lemma stops_drop_while (p : ascii -> bool) (s : string) : stops p (drop_while p s).
Proof.
  induction s as [|c s IH]; simpl; [exact I|].
  destruct (p c) eqn:E; simpl; [exact IH | exact E].
Qed.

Lemma drop_while_app (p : ascii -> bool) (a r : string) :
  all_chars p a = true -> stops p r -> drop_while p (a ++ r) = r.
Proof.
  intros Ha Hr. induction a as [|c a IH]; simpl in *.
  - destruct r as [|c r]; simpl in *; [reflexivity | now rewrite Hr].
  - apply andb_true_iff in Ha as [Hc Ha]. rewrite Hc. now apply IH.
Qed.

Lemma take_while_app (p : ascii -> bool) (a r : string) :
  all_chars p a = true -> take_while p (a ++ r) = a ++ take_while p r.
Proof.
  intros Ha. induction a as [|c a IH]; simpl in *; [reflexivity|].
  apply andb_true_iff in Ha as [Hc Ha]. rewrite Hc. now rewrite IH.
Qed.

Lemma take_while_stops (p : ascii -> bool) (a r : string) :
  all_chars p a = true -> stops p r -> take_while p (a ++ r) = a.
Proof.
  intros Ha Hr. rewrite take_while_app by assumption.
  destruct r as [|c r]; simpl in *; [|rewrite Hr]; apply app_nil_r.
Qed.

(** *** The leftmost match *)

Section Search.
Context {A : Type} (m : string -> option A).

(** [x] is the value of the match at the first position of [s] that
    has one. *)
Definition leftmost (s : string) (x : A) : Prop :=
  exists pre s',
    s = pre ++ s' /\ m s' = Some x /\
    forall pre1 s1, s = pre1 ++ s1 ->
      String.length pre1 < String.length pre -> m s1 = None.

Lemma re_search_Some (s : string) (x : A) :
  re_search m s = Some x -> leftmost s x.
Proof.
  induction s as [|c s IH]; simpl.
  - destruct (m EmptyString) eqn:E; [|discriminate].
    intros [= <-]. exists EmptyString, EmptyString. repeat split; auto.
    intros ? ? _ H; simpl in H; lia.
  - destruct (m (String c s)) eqn:E.
    + intros [= <-]. exists EmptyString, (String c s). repeat split; auto.
      intros ? ? _ H; simpl in H; lia.
    + intros H. destruct (IH H) as (pre & s' & -> & Hm & Hleft).
      exists (String c pre), s'. repeat split; auto.
      intros pre1 s1 Heq Hlen. destruct pre1 as [|c1 pre1]; simpl in *.
      * now subst s1.
      * injection Heq as -> Heq. apply (Hleft pre1 s1 Heq). lia.
Qed.

Lemma re_search_None (s : string) :
  re_search m s = None -> forall pre s', s = pre ++ s' -> m s' = None.
Proof.
  induction s as [|c s IH]; simpl.
  - destruct (m EmptyString) eqn:E; [discriminate|].
    intros _ pre s' H. destruct pre; simpl in H; [now subst s' | discriminate].
  - destruct (m (String c s)) eqn:E; [discriminate|].
    intros H pre s' Heq. destruct pre as [|c1 pre]; simpl in Heq.
    + now subst s'.
    + injection Heq as -> Heq. now apply (IH H pre s').
Qed.

Lemma re_search_finds (pre s' : string) (x : A) :
  m s' = Some x -> exists y, re_search m (pre ++ s') = Some y.
Proof.
  intros Hm. destruct (re_search m (pre ++ s')) as [y|] eqn:E; [now exists y|].
  rewrite (re_search_None _ E pre s' eq_refl) in Hm. discriminate.
Qed.

Lemma leftmost_unique (s : string) (x y : A) :
  leftmost s x -> leftmost s y -> x = y.
Proof.
  intros (p1 & s1 & E1 & M1 & L1) (p2 & s2 & E2 & M2 & L2).
  destruct (Nat.lt_trichotomy (String.length p1) (String.length p2)) as [H|[H|H]].
  - rewrite (L2 p1 s1 E1 H) in M1. discriminate.
  - assert (p1 = p2 /\ s1 = s2) as [-> ->].
    { subst s. clear - E2 H. revert p2 E2 H.
      induction p1 as [|c p1 IH]; intros [|c2 p2] E H; simpl in *; try lia; auto.
      injection E as -> E. destruct (IH p2 E) as [-> ->]; [lia | auto]. }
    congruence.
  - rewrite (L1 p2 s2 E2 H) in M2. discriminate.
Qed.
End Search.

End StrFacts.
Import StrFacts.

(* ------------------------------------------------------------------ *)
(** ** The deprecation matcher *)

Module MatcherFacts.

Definition removal_phrase : string := "pending removal in python".

(** The text [s] starts with the phrase, spaces, and the version [t],
    which is 3, a dot and all the digits that follow. *)
Definition removal_at (s t : string) : Prop :=
  exists ws ds rest,
    s = removal_phrase ++ ws ++ "3." ++ ds ++ rest /\
    all_chars is_space ws = true /\
    all_chars is_digit ds = true /\ ds <> EmptyString /\
    stops is_digit rest /\
    t = "3." ++ ds.

(** The text [s] matches "pending removal in python 3.<N>" somewhere. *)
Definition matches_removal (s : string) : Prop :=
  exists pre ws ds post,
    s = pre ++ removal_phrase ++ ws ++ "3." ++ ds ++ post /\
    all_chars is_space ws = true /\
    all_chars is_digit ds = true /\ ds <> EmptyString.

(** [t] is the version captured in [s]: the one of the first place of
    [s] where the pattern matches. *)
Definition captured (s t : string) : Prop :=
  exists pre s',
    s = pre ++ s' /\ removal_at s' t /\
    forall pre1 s1, s = pre1 ++ s1 ->
      String.length pre1 < String.length pre -> forall t', ~ removal_at s1 t'.

Lemma match_removal_at_sound (s t : string) :
  match_removal_at s = Some t -> removal_at s t.
Proof.
  unfold match_removal_at.
  destruct (skip_prefix _ s) as [r1|] eqn:E1; [|discriminate].
  destruct (skip_prefix "3." _) as [r2|] eqn:E2; [|discriminate].
  destruct (take_while is_digit r2) as [|c ds] eqn:E3; [discriminate|].
  intros [= <-].
  apply skip_prefix_Some in E1. apply skip_prefix_Some in E2.
  exists (take_while is_space r1), (String c ds), (drop_while is_digit r2).
  repeat split.
  - rewrite E1 at 1. unfold removal_phrase. f_equal.
    rewrite (take_drop_while is_space r1) at 1. f_equal.
    rewrite E2. rewrite (take_drop_while is_digit r2) at 1. now rewrite E3.
  - apply all_take_while.
  - rewrite <- E3. apply all_take_while.
  - discriminate.
  - apply stops_drop_while.
Qed.

Lemma match_removal_at_complete (ws ds rest : string) :
  all_chars is_space ws = true ->
  all_chars is_digit ds = true -> ds <> EmptyString ->
  match_removal_at (removal_phrase ++ ws ++ "3." ++ ds ++ rest)
  = Some ("3." ++ ds ++ take_while is_digit rest).
Proof.
  intros Hws Hds Hne. unfold match_removal_at, removal_phrase.
  rewrite skip_prefix_app.
  rewrite (drop_while_app is_space ws) by (assumption || reflexivity).
  rewrite skip_prefix_app.
  rewrite take_while_app by assumption.
  destruct ds as [|c ds]; [contradiction|]. reflexivity.
Qed.

Lemma match_removal_at_None (s t : string) :
  match_removal_at s = None -> ~ removal_at s t.
Proof.
  intros H (ws & ds & rest & -> & Hws & Hds & Hne & _).
  rewrite match_removal_at_complete in H by assumption. discriminate.
Qed.

Lemma leftmost_captured (s t : string) :
  leftmost match_removal_at s t -> captured s t.
Proof.
  intros (pre & s' & E & Hm & Hleft).
  exists pre, s'. repeat split; auto using match_removal_at_sound.
  intros pre1 s1 E1 Hlen t'. apply match_removal_at_None. eauto.
Qed.

Lemma matches_removal_search (s : string) :
  matches_removal s -> exists t, re_search match_removal_at s = Some t.
Proof.
  intros (pre & ws & ds & post & -> & Hws & Hds & Hne).
  eapply re_search_finds. now apply match_removal_at_complete.
Qed.

Lemma search_matches_removal (s t : string) :
  re_search match_removal_at s = Some t -> matches_removal s.
Proof.
  intros H. apply re_search_Some in H as (pre & s' & -> & Hm & _).
  apply match_removal_at_sound in Hm as (ws & ds & rest & -> & ? & ? & ? & _).
  now exists pre, ws, ds, rest.
Qed.

(** The two paths of [_find_deprecations]. *)
Lemma find_removal_path (catalog : list DeprecationInfo) (q t : string) :
  re_search match_removal_at (lower q) = Some t ->
  _find_deprecations catalog q = (REMOVAL_LIST, Some t, filter (removed_is t) catalog).
Proof. unfold _find_deprecations. now intros ->. Qed.

Lemma find_feature_path (catalog : list DeprecationInfo) (q : string) :
  re_search match_removal_at (lower q) = None ->
  _find_deprecations catalog q
  = (FEATURE_SEARCH, None,
     firstn 10 (filter (fun d => Nat.ltb 0 (score (tokenize (lower q)) d))
                  (sorted_desc (score (tokenize (lower q))) catalog))).
Proof. unfold _find_deprecations. now intros ->. Qed.

End MatcherFacts.
Import MatcherFacts.

(** C1. A question whose lowercased text matches "pending removal in
    python 3.<N>" gets mode REMOVAL_LIST, the captured version "3.<N>" as
    target, and as hits the catalog records whose version-removed field
    equals the target without regard to case, in catalog order and
    whatever their number, none included: the keyword search is not run. *)
Theorem removal_list_exact (catalog : list DeprecationInfo) (q : string) :
  matches_removal (lower q) ->
  exists target,
    captured (lower q) target /\
    _find_deprecations catalog q
    = (REMOVAL_LIST, Some target,
       filter (fun d => String.eqb (lower (or_opt (version_removed d) EmptyString))
                          (lower target)) catalog).
Proof.
  intros Hm. destruct (matches_removal_search _ Hm) as [t Ht].
  exists t. split.
  - apply leftmost_captured. now apply re_search_Some.
  - now rewrite (find_removal_path catalog q t Ht).
Qed.

Lemma removal_list_exact_witness :
  exists target,
    captured (lower "What is Pending Removal in Python 3.15?") target /\
    _find_deprecations catalog "What is Pending Removal in Python 3.15?"
    = (REMOVAL_LIST, Some target,
       filter (fun d => String.eqb (lower (or_opt (version_removed d) EmptyString))
                          (lower target)) catalog).
Proof.
  apply (removal_list_exact catalog "What is Pending Removal in Python 3.15?").
  exists "what is ", " ", "15", "?".
  split; [reflexivity | split; [reflexivity | split; [reflexivity | discriminate]]].
Defined.

(** ** The stable sort *)

Module SortFacts.
Section Sort.
Context {A : Type} (key : A -> nat).

(** [b] may follow [a]: its key is not larger. *)
Definition desc (a b : A) : Prop := (key b <= key a)%nat.

Definition has_key (k : nat) (x : A) : bool := Nat.eqb (key x) k.

Lemma insert_desc_hd (x a : A) (l : list A) :
  HdRel desc a l -> desc a x -> HdRel desc a (insert_desc key x l).
Proof.
  intros Hl Hx. destruct l as [|y l]; simpl; [now constructor|].
  destruct (Nat.ltb (key x) (key y)); constructor; [|assumption].
  now inversion Hl.
Qed.

Lemma insert_desc_sorted (x : A) (l : list A) :
  Sorted desc l -> Sorted desc (insert_desc key x l).
Proof.
  induction 1 as [|y l Hs IH Hhd]; simpl; [repeat constructor|].
  destruct (Nat.ltb (key x) (key y)) eqn:E.
  - apply Nat.ltb_lt in E. constructor; [exact IH|].
    apply insert_desc_hd; [exact Hhd | unfold desc; lia].
  - apply Nat.ltb_ge in E. repeat constructor; assumption.
Qed.

Lemma sorted_desc_sorted (l : list A) : Sorted desc (sorted_desc key l).
Proof.
  induction l as [|x l IH]; simpl; [constructor | now apply insert_desc_sorted].
Qed.

Lemma desc_trans : Relations_1.Transitive desc.
Proof. intros a b c; unfold desc; lia. Qed.

Lemma sorted_desc_strongly (l : list A) : StronglySorted desc (sorted_desc key l).
Proof. apply Sorted_StronglySorted; [exact desc_trans | apply sorted_desc_sorted]. Qed.

Lemma insert_desc_perm (x : A) (l : list A) : Permutation (x :: l) (insert_desc key x l).
Proof.
  induction l as [|y l IH]; simpl; [reflexivity|].
  destruct (Nat.ltb (key x) (key y)); [|reflexivity].
  rewrite perm_swap. now constructor.
Qed.

Lemma sorted_desc_perm (l : list A) : Permutation l (sorted_desc key l).
Proof.
  induction l as [|x l IH]; simpl; [constructor|].
  rewrite <- insert_desc_perm. now constructor.
Qed.

(** Stability: the elements of a given key keep their order. *)
Lemma insert_desc_stable (k : nat) (x : A) (l : list A) :
  filter (has_key k) (insert_desc key x l) = filter (has_key k) (x :: l).
Proof.
  induction l as [|y l IH]; [reflexivity|].
  simpl insert_desc. destruct (Nat.ltb (key x) (key y)) eqn:E; [|reflexivity].
  apply Nat.ltb_lt in E. simpl in *. rewrite IH. unfold has_key.
  destruct (Nat.eqb (key x) k) eqn:Ex, (Nat.eqb (key y) k) eqn:Ey; try reflexivity.
  apply Nat.eqb_eq in Ex, Ey. lia.
Qed.

Lemma sorted_desc_stable (k : nat) (l : list A) :
  filter (has_key k) (sorted_desc key l) = filter (has_key k) l.
Proof.
  induction l as [|x l IH]; [reflexivity|].
  simpl sorted_desc. rewrite insert_desc_stable. simpl. now rewrite IH.
Qed.

Lemma strongly_sorted_filter (R : A -> A -> Prop) (p : A -> bool) (l : list A) :
  StronglySorted R l -> StronglySorted R (filter p l).
Proof.
  induction 1 as [|x l Hs IH Hall]; simpl; [constructor|].
  destruct (p x); [|exact IH]. constructor; [exact IH|].
  rewrite Forall_forall in *. intros y Hy. apply Hall.
  now apply filter_In in Hy.
Qed.

Lemma strongly_sorted_firstn (R : A -> A -> Prop) (n : nat) (l : list A) :
  StronglySorted R l -> StronglySorted R (firstn n l).
Proof.
  intros H; revert n. induction H as [|x l Hs IH Hall]; intros [|n]; simpl;
    try constructor; [apply IH|].
  rewrite Forall_forall in *. intros y Hy. apply Hall.
  rewrite <- (firstn_skipn n l). apply in_or_app. now left.
Qed.

Lemma filter_comm (p q : A -> bool) (l : list A) :
  filter p (filter q l) = filter q (filter p l).
Proof.
  induction l as [|x l IH]; simpl; [reflexivity|].
  destruct (p x) eqn:Ep, (q x) eqn:Eq; simpl; rewrite ?Ep, ?Eq, IH; reflexivity.
Qed.

Lemma filter_all (p : A -> bool) (l : list A) :
  (forall x, In x l -> p x = true) -> filter p l = l.
Proof.
  induction l as [|x l IH]; simpl; intros H; [reflexivity|].
  rewrite (H x) by now left. rewrite IH; auto.
Qed.

Lemma filter_none (p : A -> bool) (l : list A) :
  (forall x, In x l -> p x = false) -> filter p l = [].
Proof.
  induction l as [|x l IH]; simpl; intros H; [reflexivity|].
  rewrite (H x) by now left. apply IH; auto.
Qed.

(** The first [n] elements with a positive key of the sorted list:
    those of key [k] among them open the list of those of key [k]. *)
Lemma ranked_ties (n k : nat) (l : list A) :
  let hits := firstn n (filter (fun x => Nat.ltb 0 (key x)) (sorted_desc key l)) in
  exists rest, filter (has_key k) l = (filter (has_key k) hits ++ rest)%list.
Proof.
  intros hits. destruct k as [|k].
  - exists (filter (has_key 0) l). rewrite (filter_none (has_key 0) hits); [reflexivity|].
    intros x Hx. unfold hits in Hx.
    assert (In x (filter (fun x => Nat.ltb 0 (key x)) (sorted_desc key l))) as Hin.
    { rewrite <- (firstn_skipn n). apply in_or_app. left. exact Hx. }
    apply filter_In in Hin as [_ Hpos]. apply Nat.ltb_lt in Hpos.
    unfold has_key. apply Nat.eqb_neq. lia.
  - exists (filter (has_key (S k))
              (skipn n (filter (fun x => Nat.ltb 0 (key x)) (sorted_desc key l)))).
    unfold hits. rewrite <- filter_app, firstn_skipn, filter_comm, sorted_desc_stable.
    symmetry. apply filter_all. intros x Hx. apply filter_In in Hx as [_ Hx].
    unfold has_key in Hx. apply Nat.eqb_eq in Hx. apply Nat.ltb_lt. lia.
Qed.
End Sort.
End SortFacts.
Import SortFacts.

(** ** The hits of the matcher *)

Definition mode_of (r : Mode * option string * list DeprecationInfo) : Mode := fst (fst r).
Definition target_of (r : Mode * option string * list DeprecationInfo) : option string :=
  snd (fst r).
Definition hits_of (r : Mode * option string * list DeprecationInfo)
  : list DeprecationInfo := snd r.

(** Eleven records that Python 3.15 removes. *)
Definition eleven : list DeprecationInfo :=
  repeat (dep "imp" (Some "3.15") None "the imp module") 11.

(** C4, as stated, fails: the REMOVAL_LIST path returns every record of
    the catalog that the target version removes, here eleven of them. *)
Lemma removal_list_not_capped :
  ~ (forall (q : string) (catalog : list DeprecationInfo),
        (List.length (hits_of (_find_deprecations catalog q)) <= 10)%nat).
Proof.
  intros H. specialize (H "pending removal in python 3.15" eleven).
  vm_compute in H. lia.
Qed.

(** C4, amended. In FEATURE_SEARCH mode the hits are at most 10 records;
    in REMOVAL_LIST mode they are all the records of the catalog whose
    version-removed field is the target, with no cap of their own: at
    most as many as the catalog has. *)
Theorem hits_bound (catalog : list DeprecationInfo) (q : string) :
  match _find_deprecations catalog q with
  | (FEATURE_SEARCH, _, hits) => (List.length hits <= 10)%nat
  | (REMOVAL_LIST, target, hits) =>
      exists t, target = Some t /\
                hits = filter (removed_is t) catalog /\
                (List.length hits <= List.length catalog)%nat
  end.
Proof.
  unfold _find_deprecations.
  destruct (re_search match_removal_at (lower q)) as [t|].
  - exists t. repeat split. apply filter_length_le.
  - apply firstn_le_length.
Qed.

(** C5. On the FEATURE_SEARCH path the hits are at most 10, their scores
    never increase along the list, the hits of any one score are, in
    catalog order, the first records of the catalog with that score, and
    no hit scores 0; with no token left every record scores 0 and there
    is no hit. *)
Theorem feature_search_ranked (catalog : list DeprecationInfo) (q : string)
    (target : option string) (hits : list DeprecationInfo) :
  _find_deprecations catalog q = (FEATURE_SEARCH, target, hits) ->
  let tokens := tokenize (lower q) in
  (List.length hits <= 10)%nat /\
  StronglySorted (fun a b => (score tokens b <= score tokens a)%nat) hits /\
  (forall k, exists rest,
      filter (fun d => Nat.eqb (score tokens d) k) catalog
      = (filter (fun d => Nat.eqb (score tokens d) k) hits ++ rest)%list) /\
  Forall (fun d => (0 < score tokens d)%nat) hits /\
  (tokens = [] -> (forall d, score tokens d = 0) /\ hits = []).
Proof.
  intros H tokens.
  destruct (re_search match_removal_at (lower q)) as [t|] eqn:E.
  { rewrite (find_removal_path catalog q t E) in H. discriminate. }
  rewrite (find_feature_path catalog q E) in H.
  apply (f_equal snd) in H. cbv [snd] in H. fold tokens in H. subst hits.
  split; [|split; [|split; [|split]]].
  - apply firstn_le_length.
  - apply (strongly_sorted_firstn (desc (score tokens))).
    apply strongly_sorted_filter. apply sorted_desc_strongly.
  - intros k. apply (ranked_ties (score tokens) 10 k catalog).
  - apply Forall_forall. intros d Hd.
    assert (In d (filter (fun d => Nat.ltb 0 (score tokens d))
                    (sorted_desc (score tokens) catalog))) as Hin.
    { rewrite <- (firstn_skipn 10). apply in_or_app. now left. }
    apply filter_In in Hin as [_ Hpos]. now apply Nat.ltb_lt in Hpos.
  - intros Htok. rewrite Htok. split; [reflexivity|].
    rewrite filter_none; [reflexivity|]. intros d _. reflexivity.
Qed.

Lemma feature_search_ranked_witness :
  let tokens := tokenize (lower "is asyncio deprecated? typing") in
  let hits := hits_of (_find_deprecations catalog "is asyncio deprecated? typing") in
  (List.length hits <= 10)%nat /\
  StronglySorted (fun a b => (score tokens b <= score tokens a)%nat) hits /\
  (forall k, exists rest,
      filter (fun d => Nat.eqb (score tokens d) k) catalog
      = (filter (fun d => Nat.eqb (score tokens d) k) hits ++ rest)%list) /\
  Forall (fun d => (0 < score tokens d)%nat) hits /\
  (tokens = [] -> (forall d, score tokens d = 0) /\ hits = []).
Proof.
  apply (feature_search_ranked catalog "is asyncio deprecated? typing" None).
  reflexivity.
Defined.

(** C10. The target of a result is present exactly in REMOVAL_LIST mode:
    a FEATURE_SEARCH result has none, and a REMOVAL_LIST result has the
    version captured in the lowercased question. *)
Theorem target_iff_removal_list (catalog : list DeprecationInfo) (q : string) :
  let r := _find_deprecations catalog q in
  (target_of r <> None <-> mode_of r = REMOVAL_LIST) /\
  (mode_of r = FEATURE_SEARCH <-> target_of r = None) /\
  (mode_of r = REMOVAL_LIST <->
   exists t, target_of r = Some t /\ captured (lower q) t).
Proof.
  unfold _find_deprecations.
  destruct (re_search match_removal_at (lower q)) as [t|] eqn:E; cbn.
  - repeat split; try discriminate; try reflexivity.
    + intros _. exists t. split; [reflexivity|].
      apply leftmost_captured. now apply re_search_Some.
  - repeat split; try discriminate; try reflexivity; try congruence.
    intros (t & Ht & _). discriminate.
Qed.

(* ------------------------------------------------------------------ *)
(** ** The intent router *)

Module RouterFacts.

(** The text [k] occurs in [q] in some letter case. *)
Definition occurs_ci (k q : string) : Prop :=
  exists pre mid post, q = pre ++ mid ++ post /\ lower mid = k.

Lemma occurs_ci_contains (k q : string) :
  occurs_ci k q <-> contains k (lower q) = true.
Proof.
  split; [apply contains_lower_literal|].
  intros H. apply contains_spec in H as (pre & post & H).
  revert pre H. induction q as [|c q IH]; intros pre H.
  - destruct pre; simpl in H.
    + exists EmptyString, EmptyString, EmptyString. split; [reflexivity|].
      destruct k; [reflexivity | discriminate].
    + discriminate.
  - destruct pre as [|c' pre]; simpl in H.
    + clear IH. exists EmptyString. simpl.
      assert (forall k s post, lower s = k ++ post ->
                exists mid rest, s = mid ++ rest /\ lower mid = k) as Hsplit.
      { clear. induction k as [|a k IH]; intros s post H.
        - now exists EmptyString, s.
        - destruct s as [|b s]; [discriminate|]. simpl in H. injection H as Ha H.
          destruct (IH s post H) as (mid & rest & -> & Hm).
          exists (String b mid), rest. simpl. now rewrite Ha, Hm. }
      destruct (Hsplit k (String c q) post H) as (mid & rest & E & Hm).
      now exists mid, rest.
    + injection H as _ H. destruct (IH pre H) as (p & mid & post' & -> & Hm).
      now exists (String c p), mid, post'.
Qed.

Lemma in_valid_intents (v : string) :
  mem v valid_intents = true <-> In v valid_intents.
Proof.
  unfold mem. rewrite existsb_exists. split.
  - intros (x & Hx & E). apply String.eqb_eq in E. now subst.
  - intros H. exists v. split; [assumption | apply String.eqb_refl].
Qed.

(** The last test of the router leaves a canonical name alone. *)
Lemma route_valid (query reply : string) :
  mem (jira_override (lower query)
         (deprecation_override (lower query) (fst (clean_up (strip reply)))))
      valid_intents = true ->
  route query reply
  = jira_override (lower query)
      (deprecation_override (lower query) (fst (clean_up (strip reply)))).
Proof.
  unfold route. destruct (clean_up (strip reply)) as [intent found]. cbn [fst].
  intros ->. now rewrite andb_false_r.
Qed.

Lemma jira_override_scrum (msg_lower intent : string) :
  contains "scrum-" msg_lower = true -> jira_override msg_lower intent = "JIRA_DETAIL".
Proof. unfold jira_override. now intros ->. Qed.

Lemma jira_override_count (msg_lower intent : string) :
  contains "scrum-" msg_lower = false ->
  contains "how many" msg_lower = true -> contains "ticket" msg_lower = true ->
  jira_override msg_lower intent = "JIRA_COUNT".
Proof. unfold jira_override. now intros -> -> ->. Qed.

Lemma deprecation_override_keyword (k msg_lower intent : string) :
  In k deprecation_keywords -> contains k msg_lower = true ->
  deprecation_override msg_lower intent = "DEPRECATION_INFO".
Proof.
  intros Hin Hk. unfold deprecation_override.
  replace (existsb _ deprecation_keywords) with true; [reflexivity|].
  symmetry. apply existsb_exists. now exists k.
Qed.

(** What [classify] does with the generator's answer. *)
Lemma classify_Ok (self : QAEngine) (q r : string) :
  generate_response (llm_client self) (classify_prompt q) (Some system_instruction)
  = Ok (Text r) ->
  classify self q
  = ([GenerateResponse (classify_prompt q) (Some system_instruction)], Ok (route q r)).
Proof. unfold classify, call, bind, ret. now intros ->. Qed.


End RouterFacts.
Import RouterFacts.

(** C6. A question with "scrum-" in it, in any letter case, is routed to
    JIRA_DETAIL whatever the generator replies: two runs that differ in
    the reply alone give the same intent. *)
Theorem scrum_key_wins (q r1 r2 : string) :
  occurs_ci "scrum-" q ->
  route q r1 = "JIRA_DETAIL" /\ route q r2 = "JIRA_DETAIL".
Proof.
  intros H. apply occurs_ci_contains in H.
  split; rewrite route_valid; rewrite (jira_override_scrum _ _ H); reflexivity.
Qed.

Lemma scrum_key_wins_witness :
  route "What about SCRUM-42?" "GENERAL" = "JIRA_DETAIL" /\
  route "What about SCRUM-42?" "I think this is DEPRECATION_INFO" = "JIRA_DETAIL".
Proof.
  apply (scrum_key_wins "What about SCRUM-42?").
  exists "What about ", "SCRUM-", "42?". split; reflexivity.
Defined.

(** C2, as stated, fails: "how many deprecated tickets are open?" is
    routed to JIRA_COUNT, the override that is applied last. *)
Lemma deprecated_count_is_not_deprecation_info :
  ~ (forall q reply : string,
        contains "deprecated" (lower q) = true ->
        contains "how many" (lower q) = true ->
        contains "ticket" (lower q) = true ->
        contains "scrum-" (lower q) = false ->
        route q reply = "DEPRECATION_INFO").
Proof.
  intros H.
  specialize (H "how many deprecated tickets are open?" "DEPRECATION_INFO"
                eq_refl eq_refl eq_refl eq_refl).
  vm_compute in H. discriminate.
Qed.

(** C2, amended. For a question with "deprecated", "how many" and
    "ticket" in it and no "scrum-", the deprecation override does set
    DEPRECATION_INFO, and the Jira override that follows replaces it: the
    intent is JIRA_COUNT, whatever the generator replies. *)
Theorem deprecated_count_is_jira_count (q reply : string) :
  occurs_ci "deprecated" q ->
  occurs_ci "how many" q ->
  occurs_ci "ticket" q ->
  ~ occurs_ci "scrum-" q ->
  deprecation_override (lower q) (fst (clean_up (strip reply))) = "DEPRECATION_INFO" /\
  route q reply = "JIRA_COUNT".
Proof.
  rewrite !occurs_ci_contains. intros Hd Hh Ht Hs.
  apply not_true_is_false in Hs. split.
  - apply (deprecation_override_keyword "deprecated"); [simpl; tauto | exact Hd].
  - rewrite route_valid; rewrite (jira_override_count _ _ Hs Hh Ht); reflexivity.
Qed.

Lemma deprecated_count_is_jira_count_witness :
  deprecation_override (lower "How many Deprecated tickets are open?")
    (fst (clean_up (strip "JIRA_LIST"))) = "DEPRECATION_INFO" /\
  route "How many Deprecated tickets are open?" "JIRA_LIST" = "JIRA_COUNT".
Proof.
  apply (deprecated_count_is_jira_count "How many Deprecated tickets are open?" "JIRA_LIST").
  - exists "How many ", "Deprecated", " tickets are open?". split; reflexivity.
  - exists EmptyString, "How many", " Deprecated tickets are open?". split; reflexivity.
  - exists "How many Deprecated ", "ticket", "s are open?". split; reflexivity.
  - intros H. apply occurs_ci_contains in H. vm_compute in H. discriminate.
Defined.

(** ** A generator that fails *)

Module FailureFacts.
Import Clients.

(** The text [OllamaClient] sends for the classification of [q]. *)
Definition ollama_classify_prompt (q : string) : string :=
  "System: " ++ system_instruction ++ nl ++ nl ++ "User: " ++ classify_prompt q.

Definition gemini_classify_prompt (q : string) : string :=
  system_instruction ++ nl ++ nl ++ classify_prompt q.

Lemma given_system_instruction : given (Some system_instruction) = Some system_instruction.
Proof. reflexivity. Qed.

Lemma ollama_swallows (post : string -> string -> string -> result (option Reply))
    (model base_url q e : string) :
  post (base_url ++ "/api/generate") model (ollama_classify_prompt q) = Raise e ->
  generate_response (OllamaClient post model base_url) (classify_prompt q)
    (Some system_instruction)
  = Ok (Text ("Error calling Ollama: " ++ e)).
Proof.
  intros H. unfold OllamaClient. cbn [generate_response].
  rewrite given_system_instruction. fold (ollama_classify_prompt q). now rewrite H.
Qed.

Lemma gemini_swallows (gen : string -> result string) (q e : string) :
  gen (gemini_classify_prompt q) = Raise e ->
  generate_response (GeminiClient gen) (classify_prompt q) (Some system_instruction)
  = Ok (Text ("Error calling Gemini: " ++ e)).
Proof.
  intros H. unfold GeminiClient. cbn [generate_response].
  rewrite given_system_instruction. fold (gemini_classify_prompt q). now rewrite H.
Qed.

(** [ConcreteLLMClient] of the agent lets the exception through. *)
Lemma concrete_raises (post : string -> string -> string -> string -> result (option Reply))
    (gen : string -> list string -> result (option string))
    (base model q e : string) :
  post (base ++ "/api/chat") model system_instruction (classify_prompt q) = Raise e ->
  generate_response (ConcreteLLMClient post gen true base model) (classify_prompt q)
    (Some system_instruction)
  = Raise e.
Proof. intros H. unfold ConcreteLLMClient. cbn [generate_response]. now rewrite H. Qed.

(** A transport whose every request fails with "Connection refused". *)
Definition refused : string -> string -> string -> result (option Reply) :=
  fun _ _ _ => Raise "Connection refused".


(** The reply names none of the eight intents. *)
Definition names_no_intent (reply : string) : Prop :=
  forall v, In v valid_intents -> contains v (strip reply) = false.

(** No override applies to the question. *)
Definition no_override (q : string) : Prop :=
  forall intent, jira_override (lower q) (deprecation_override (lower q) intent) = intent.

Lemma clean_up_found (s v : string) :
  clean_up s = (v, true) -> In v valid_intents /\ contains v s = true.
Proof.
  unfold clean_up. destruct (find _ valid_intents) as [w|] eqn:E; [|discriminate].
  intros [= <-]. now apply find_some in E.
Qed.


Lemma clean_up_none (s : string) :
  (forall w, In w valid_intents -> contains w s = false) -> clean_up s = (s, false).
Proof.
  intros H. unfold clean_up.
  destruct (find _ valid_intents) as [w|] eqn:E; [|reflexivity].
  apply find_some in E as [Hin Hc]. rewrite (H w Hin) in Hc. discriminate.
Qed.

Lemma contains_refl (s : string) : contains s s = true.
Proof.
  apply contains_spec. exists EmptyString, EmptyString.
  simpl. now rewrite StrFacts.app_nil_r.
Qed.


(** A reply that names no intent, on a question without override, is
    routed to GENERAL. *)
Lemma route_default (q r : string) :
  names_no_intent r -> no_override q -> route q r = "GENERAL".
Proof.
  intros Hn Ho. unfold route. rewrite (clean_up_none _ Hn), Ho. cbn [negb andb].
  destruct (mem (strip r) valid_intents) eqn:E; [|reflexivity].
  apply in_valid_intents in E. specialize (Hn _ E).
  rewrite contains_refl in Hn. discriminate.
Qed.

(** The router produces one of the eight canonical names. *)
Lemma route_canonical (q r : string) : In (route q r) valid_intents.
Proof.
  unfold route. destruct (clean_up (strip r)) as [intent [|]] eqn:E; cbn [negb andb].
  - apply clean_up_found in E as [Hin _].
    unfold jira_override, deprecation_override.
    repeat match goal with |- context [if ?b then _ else _] => destruct b end;
      first [exact Hin | simpl; tauto].
  - destruct (mem _ valid_intents) eqn:Em; cbn [negb].
    + now apply in_valid_intents.
    + simpl; tauto.
Qed.

End FailureFacts.
Import FailureFacts.

(** With [OllamaClient] a server that refuses the connection makes no
    call of [generate_response] fail: the client hands back the text of
    the error, and the question "hello" is routed to GENERAL. *)
Example ollama_refused_is_general :
  outcome (classify (engine (Clients.OllamaClient refused "llama3" "http://localhost:11434"))
             "hello")
  = Ok "GENERAL".
Proof. reflexivity. Qed.




(* ------------------------------------------------------------------ *)
(** ** The context assembler *)

Module AssemblerFacts.

(** *** BACKLOG_PICKUP *)

(** No ticket has the title of [t] as its summary, letter case apart. *)
Definition eligible (tickets : list JiraTicket) (t : BacklogTask) : Prop :=
  forall k, In k tickets -> lower (title t) <> lower (summary k).

Definition eligibleb (tickets : list JiraTicket) (t : BacklogTask) : bool :=
  forallb (fun k => negb (String.eqb (lower (title t)) (lower (summary k)))) tickets.

Lemma eligibleb_spec (tickets : list JiraTicket) (t : BacklogTask) :
  eligibleb tickets t = true <-> eligible tickets t.
Proof.
  unfold eligibleb, eligible. rewrite forallb_forall. split; intros H k Hk.
  - specialize (H k Hk). apply negb_true_iff, String.eqb_neq in H. exact H.
  - apply negb_true_iff, String.eqb_neq. now apply H.
Qed.

Lemma mem_map_summary (x : string) (tickets : list JiraTicket) :
  negb (mem x (map (fun k => lower (summary k)) tickets))
  = forallb (fun k => negb (String.eqb x (lower (summary k)))) tickets.
Proof.
  unfold mem. induction tickets as [|k l IH]; simpl; [reflexivity|].
  now rewrite negb_orb, IH.
Qed.

Lemma pickup_list_filter (tasks : list BacklogTask) (tickets : list JiraTicket) :
  pickup_list tasks tickets = filter (eligibleb tickets) tasks.
Proof.
  unfold pickup_list, eligibleb. apply filter_ext. intros t. apply mem_map_summary.
Qed.

Lemma pickup_run (self : QAEngine) (q : string) (tasks : list BacklogTask)
    (tickets : list JiraTicket) :
  get_backlog_tasks (gdrive_conn self) = Ok tasks ->
  get_tickets (jira_conn self) None = Ok tickets ->
  build_context self "BACKLOG_PICKUP" q
  = ([GetBacklogTasks; GetTickets None], Ok (pickup_context (pickup_list tasks tickets))).
Proof. intros H1 H2. unfold build_context. cbn. rewrite H1. cbn. rewrite H2. reflexivity. Qed.

(** *** DEPRECATION_GAP *)

(** The lowercased feature of [d] is part of no lowercased backlog title. *)
Definition is_gap (tasks : list BacklogTask) (d : DeprecationInfo) : Prop :=
  forall t, In t tasks ->
    ~ exists pre post, lower (title t) = pre ++ lower (feature d) ++ post.

Definition is_gapb (tasks : list BacklogTask) (d : DeprecationInfo) : bool :=
  forallb (fun t => negb (contains (lower (feature d)) (lower (title t)))) tasks.

Lemma is_gapb_spec (tasks : list BacklogTask) (d : DeprecationInfo) :
  is_gapb tasks d = true <-> is_gap tasks d.
Proof.
  unfold is_gapb, is_gap. rewrite forallb_forall. split; intros H t Ht.
  - specialize (H t Ht). apply negb_true_iff in H.
    intros Hc. apply contains_spec in Hc. congruence.
  - apply negb_true_iff. apply not_true_is_false. intros Hc.
    apply contains_spec in Hc. now apply (H t Ht).
Qed.

(** The enumeration of the set of titles does not matter. *)
Lemma is_in_backlog_any_order (titles titles' : list string) (d : DeprecationInfo) :
  (forall x, In x titles <-> In x titles') ->
  is_in_backlog titles d = is_in_backlog titles' d.
Proof.
  intros H. unfold is_in_backlog. apply eq_true_iff_eq.
  rewrite !existsb_exists. split; intros (x & Hx & Hc); exists x; split; auto; now apply H.
Qed.

Lemma is_in_backlog_spec (tasks : list BacklogTask) (d : DeprecationInfo) :
  negb (is_in_backlog (backlog_titles tasks) d) = is_gapb tasks d.
Proof.
  rewrite (is_in_backlog_any_order (backlog_titles tasks)
             (map (fun t => lower (title t)) tasks)).
  - unfold is_in_backlog, is_gapb. induction tasks as [|t l IH]; simpl; [reflexivity|].
    now rewrite negb_orb, IH.
  - intros x. unfold backlog_titles. apply nodup_In.
Qed.

Lemma gap_items_filter (deps : list DeprecationInfo) (tasks : list BacklogTask) :
  gap_items deps tasks = filter (is_gapb tasks) deps.
Proof. unfold gap_items. apply filter_ext. intros d. apply is_in_backlog_spec. Qed.

Lemma gap_run (self : QAEngine) (q : string) (tasks : list BacklogTask) :
  get_backlog_tasks (gdrive_conn self) = Ok tasks ->
  build_context self "DEPRECATION_GAP" q
  = ([GetBacklogTasks], Ok (gap_context (gap_items (deprecations self) tasks))).
Proof. intros H. unfold build_context. cbn. rewrite H. reflexivity. Qed.

End AssemblerFacts.
Import AssemblerFacts.

(** C7. For BACKLOG_PICKUP the pickup list is the backlog, in its order,
    without the items whose lowercased title is the lowercased summary of
    some ticket (equality of the whole text, not containment); the
    context lists it, and is the "already in Jira" sentence when it is
    empty. *)
Theorem pickup_exact_title (self : QAEngine) (q : string)
    (tasks : list BacklogTask) (tickets : list JiraTicket) :
  get_backlog_tasks (gdrive_conn self) = Ok tasks ->
  get_tickets (jira_conn self) None = Ok tickets ->
  let pickup := pickup_list tasks tickets in
  (exists f, (forall t, f t = true <-> eligible tickets t) /\ pickup = filter f tasks) /\
  (forall t, In t pickup <-> In t tasks /\ eligible tickets t) /\
  outcome (build_context self "BACKLOG_PICKUP" q) = Ok (pickup_context pickup) /\
  (pickup = [] ->
   outcome (build_context self "BACKLOG_PICKUP" q)
   = Ok "Everything in backlog is already in Jira.").
Proof.
  intros H1 H2 pickup. unfold pickup.
  rewrite (pickup_run self q tasks tickets H1 H2). rewrite pickup_list_filter.
  split; [|split; [|split]].
  - exists (eligibleb tickets). split; [apply eligibleb_spec | reflexivity].
  - intros t. rewrite filter_In, eligibleb_spec. reflexivity.
  - reflexivity.
  - intros ->. reflexivity.
Qed.

(** The example of the specification: one backlog item and one ticket
    that differ in letter case only. *)
Definition ssl_backlog : GDriveConnector :=
  {| get_backlog_tasks :=
       Ok [ {| title := "Deprecate old SSL"; task_description := "Remove SSL v2/v3 support";
               source_file := "ssl_notes.txt" |} ] |}.

Definition ssl_jira : JiraConnector :=
  {| get_tickets := fun _ =>
       Ok [ {| key := "SCRUM-7"; summary := "deprecate old ssl"; status := "To Do";
               ticket_description := "Task for SCRUM-7"; assignee := None |} ];
     get_ticket := fun _ => Ok None |}.

Definition ssl_engine : QAEngine :=
  {| jira_conn := ssl_jira; gdrive_conn := ssl_backlog;
     llm_client := constant_llm "BACKLOG_PICKUP"; deprecations := catalog |}.

Lemma pickup_exact_title_witness :
  pickup_list
    [ {| title := "Deprecate old SSL"; task_description := "Remove SSL v2/v3 support";
         source_file := "ssl_notes.txt" |} ]
    [ {| key := "SCRUM-7"; summary := "deprecate old ssl"; status := "To Do";
         ticket_description := "Task for SCRUM-7"; assignee := None |} ] = [] /\
  outcome (build_context ssl_engine "BACKLOG_PICKUP" "what can I pick up?")
  = Ok "Everything in backlog is already in Jira.".
Proof.
  split; [reflexivity|].
  apply (pickup_exact_title ssl_engine "what can I pick up?" _ _ eq_refl eq_refl).
  reflexivity.
Defined.

(** C8. For DEPRECATION_GAP the gaps are the catalog records, in catalog
    order, whose lowercased feature is part of no lowercased backlog
    title; the context lists them, and is the "all represented" sentence
    when there is none. *)
Theorem gap_by_substring (self : QAEngine) (q : string) (tasks : list BacklogTask) :
  get_backlog_tasks (gdrive_conn self) = Ok tasks ->
  let gaps := gap_items (deprecations self) tasks in
  (exists f, (forall d, f d = true <-> is_gap tasks d) /\
             gaps = filter f (deprecations self)) /\
  (forall d, In d gaps <-> In d (deprecations self) /\ is_gap tasks d) /\
  outcome (build_context self "DEPRECATION_GAP" q) = Ok (gap_context gaps) /\
  (gaps = [] ->
   outcome (build_context self "DEPRECATION_GAP" q)
   = Ok "All deprecations seem to be represented in the backlog.").
Proof.
  intros H gaps. unfold gaps.
  rewrite (gap_run self q tasks H). rewrite gap_items_filter.
  split; [|split; [|split]].
  - exists (is_gapb tasks). split; [apply is_gapb_spec | reflexivity].
  - intros d. rewrite filter_In, is_gapb_spec. reflexivity.
  - reflexivity.
  - intros ->. reflexivity.
Qed.

(** The example of the specification: the feature asyncio.coroutine is in
    a backlog title, the feature "smtpd module" is in none. *)
Definition coroutine_backlog : list BacklogTask :=
  [ {| title := "Remove asyncio.coroutine support"; task_description := "notes";
       source_file := "asyncio_notes.txt" |} ].

Definition coroutine_engine : QAEngine :=
  {| jira_conn := mock_jira;
     gdrive_conn := {| get_backlog_tasks := Ok coroutine_backlog |};
     llm_client := constant_llm "DEPRECATION_GAP";
     deprecations := [ dep "asyncio.coroutine" (Some "3.15") (Some "asyncio") "decorator";
                       dep "smtpd module" (Some "3.12") None "smtpd" ] |}.

Lemma gap_by_substring_witness :
  map feature (gap_items (deprecations coroutine_engine) coroutine_backlog)
  = ["smtpd module"] /\
  (forall d, In d (gap_items (deprecations coroutine_engine) coroutine_backlog) <->
             In d (deprecations coroutine_engine) /\ is_gap coroutine_backlog d).
Proof.
  split; [reflexivity|].
  apply (gap_by_substring coroutine_engine "which deprecations are new?" coroutine_backlog
           eq_refl).
Defined.

(** ** JIRA_DETAIL *)

Module DetailFacts.

(** The text [s] starts with "scrum-" and the digits [ds], all of them. *)
Definition scrum_at (s ds : string) : Prop :=
  exists rest,
    s = "scrum-" ++ ds ++ rest /\
    all_chars is_digit ds = true /\ ds <> EmptyString /\ stops is_digit rest.

(** The text [s] has "scrum-" and a digit somewhere. *)
Definition has_scrum_key (s : string) : Prop :=
  exists pre ds post,
    s = pre ++ "scrum-" ++ ds ++ post /\
    all_chars is_digit ds = true /\ ds <> EmptyString.

(** [ds] are the digits of the first "scrum-<digits>" of [s]. *)
Definition scrum_digits (s ds : string) : Prop :=
  exists pre s',
    s = pre ++ s' /\ scrum_at s' ds /\
    forall pre1 s1, s = pre1 ++ s1 ->
      String.length pre1 < String.length pre -> forall ds', ~ scrum_at s1 ds'.

Lemma match_scrum_at_complete (ds rest : string) :
  all_chars is_digit ds = true -> ds <> EmptyString ->
  match_scrum_at ("scrum-" ++ ds ++ rest) = Some (ds ++ take_while is_digit rest).
Proof.
  intros Hds Hne. unfold match_scrum_at.
  rewrite skip_prefix_app, take_while_app by assumption.
  destruct ds as [|c ds]; [contradiction | reflexivity].
Qed.

Lemma match_scrum_at_iff (s ds : string) :
  match_scrum_at s = Some ds <-> scrum_at s ds.
Proof.
  split.
  - unfold match_scrum_at.
    destruct (skip_prefix "scrum-" s) as [r|] eqn:E1; [|discriminate].
    destruct (take_while is_digit r) as [|c t] eqn:E2; [discriminate|].
    intros [= <-]. apply skip_prefix_Some in E1.
    exists (drop_while is_digit r). split; [|split; [|split]].
    + rewrite E1 at 1. f_equal. rewrite <- E2. apply take_drop_while.
    + rewrite <- E2. apply all_take_while.
    + discriminate.
    + apply stops_drop_while.
  - intros (rest & -> & Hds & Hne & Hstop).
    rewrite match_scrum_at_complete by assumption. f_equal.
    destruct rest as [|c rest]; simpl in *; [|rewrite Hstop]; apply app_nil_r.
Qed.

Lemma match_scrum_at_None (s : string) :
  match_scrum_at s = None -> forall ds, ~ scrum_at s ds.
Proof. intros H ds Hs. apply match_scrum_at_iff in Hs. congruence. Qed.

Lemma leftmost_scrum (s ds : string) :
  leftmost match_scrum_at s ds -> scrum_digits s ds.
Proof.
  intros (pre & s' & E & Hm & Hleft). exists pre, s'.
  split; [exact E|]. split; [now apply match_scrum_at_iff|].
  intros pre1 s1 E1 Hlen ds'. apply match_scrum_at_None. eauto.
Qed.

Lemma search_scrum_None (s : string) :
  ~ has_scrum_key s -> re_search match_scrum_at s = None.
Proof.
  intros Hno. destruct (re_search match_scrum_at s) as [ds|] eqn:E; [|reflexivity].
  exfalso. apply Hno. apply re_search_Some in E as (pre & s' & -> & Hm & _).
  apply match_scrum_at_iff in Hm as (rest & -> & Hds & Hne & _).
  now exists pre, ds, rest.
Qed.

Lemma search_scrum_Some (s ds : string) :
  scrum_digits s ds -> re_search match_scrum_at s = Some ds.
Proof.
  intros (pre & s' & E & Hat & Hleft).
  assert (leftmost match_scrum_at s ds) as Hl.
  { exists pre, s'. split; [exact E|]. split; [now apply match_scrum_at_iff|].
    intros pre1 s1 E1 Hlen. destruct (match_scrum_at s1) as [ds'|] eqn:Em; [|reflexivity].
    apply match_scrum_at_iff in Em. now destruct (Hleft pre1 s1 E1 Hlen ds'). }
  apply match_scrum_at_iff in Hat.
  destruct (re_search_finds match_scrum_at pre s' ds Hat) as [y Hy].
  rewrite <- E in Hy. rewrite Hy. f_equal.
  apply re_search_Some in Hy. exact (leftmost_unique _ _ _ _ Hy Hl).
Qed.

Lemma detail_run (self : QAEngine) (q : string) :
  build_context self "JIRA_DETAIL" q
  = match re_search match_scrum_at (lower q) with
    | Some digits =>
        bind (call (GetTicket ("SCRUM-" ++ digits))
                (get_ticket (jira_conn self) ("SCRUM-" ++ digits)))
          (fun ticket =>
             match ticket with
             | Some t => ret (ticket_details t)
             | None => ret (not_found_context ("SCRUM-" ++ digits))
             end)
    | None => ret no_key_context
    end.
Proof. reflexivity. Qed.

End DetailFacts.
Import DetailFacts.

(** C9. For JIRA_DETAIL: a question without "scrum-<digits>", letter case
    apart, gets the "could not identify ticket key" sentence and no call
    is made. Otherwise the one call made is the lookup of "SCRUM-" and the
    digits of the first such key; a ticket found is shown with its key,
    summary, status, description and assignee, and a lookup that finds
    nothing gives the "not found" sentence with the key, not an
    exception. *)
Theorem jira_detail_context (self : QAEngine) (q : string) :
  (~ has_scrum_key (lower q) ->
   build_context self "JIRA_DETAIL" q
   = ([], Ok "Could not identify ticket key (SCRUM-XXX) in query.")) /\
  (forall digits, scrum_digits (lower q) digits ->
     let ticket_key := "SCRUM-" ++ digits in
     calls (build_context self "JIRA_DETAIL" q) = [GetTicket ticket_key] /\
     (forall t, get_ticket (jira_conn self) ticket_key = Ok (Some t) ->
        outcome (build_context self "JIRA_DETAIL" q)
        = Ok ("Ticket Details:" ++ nl
              ++ "Key: " ++ key t ++ nl
              ++ "Summary: " ++ summary t ++ nl
              ++ "Status: " ++ status t ++ nl
              ++ "Description: " ++ ticket_description t ++ nl
              ++ "Assignee: " ++ match assignee t with Some a => a | None => "None" end)) /\
     (get_ticket (jira_conn self) ticket_key = Ok None ->
        outcome (build_context self "JIRA_DETAIL" q)
        = Ok ("Ticket " ++ ticket_key ++ " not found."))).
Proof.
  split.
  - intros Hno. rewrite detail_run, (search_scrum_None _ Hno). reflexivity.
  - intros digits Hd ticket_key. rewrite detail_run, (search_scrum_Some _ _ Hd).
    fold ticket_key. unfold call, bind, calls, outcome.
    split; [|split].
    + destruct (get_ticket (jira_conn self) ticket_key) as [[t|]|e]; reflexivity.
    + intros t ->. reflexivity.
    + intros ->. reflexivity.
Qed.

Lemma jira_detail_context_witness :
  build_context (engine (constant_llm "JIRA_DETAIL")) "JIRA_DETAIL" "show me the ticket"
  = ([], Ok "Could not identify ticket key (SCRUM-XXX) in query.") /\
  calls (build_context (engine (constant_llm "JIRA_DETAIL")) "JIRA_DETAIL"
           "What is in Scrum-66, or scrum-6?")
  = [GetTicket "SCRUM-66"] /\
  outcome (build_context (engine (constant_llm "JIRA_DETAIL")) "JIRA_DETAIL"
             "What is in Scrum-66, or scrum-6?")
  = Ok "Ticket SCRUM-66 not found.".
Proof.
  split.
  - apply (proj1 (jira_detail_context (engine (constant_llm "JIRA_DETAIL"))
                    "show me the ticket")).
    intros (pre & ds & post & E & _ & _).
    assert (contains "scrum-" (lower "show me the ticket") = true) as Hc.
    { apply contains_spec. exists pre, (ds ++ post). exact E. }
    vm_compute in Hc. discriminate.
  - assert (scrum_digits (lower "What is in Scrum-66, or scrum-6?") "66") as Hd.
    { apply leftmost_scrum. apply re_search_Some. reflexivity. }
    destruct (proj2 (jira_detail_context (engine (constant_llm "JIRA_DETAIL"))
                       "What is in Scrum-66, or scrum-6?") "66" Hd) as (Hcalls & _ & Hnone).
    split; [exact Hcalls | apply Hnone; reflexivity].
Defined.

(* ================================================================== *)
(** * Further properties of the engine *)

(** ** The router: overrides and the reply *)

Module RouterMore.

(** The last character of [s], if it has one. *)
Fixpoint last_char (prev : option ascii) (s : string) : option ascii :=
  match s with
  | EmptyString => prev
  | String c s' => last_char (Some c) s'
  end.

Definition word_char (o : option ascii) : bool :=
  match o with Some c => is_word c | None => false end.

(** The text [s] mentions a version of Python 3 as a word of its own:
    "python", spaces, "3.", digits, with no word character right before
    or right after. *)
Definition version_mention (s : string) : Prop :=
  exists pre ws ds post,
    s = pre ++ "python" ++ ws ++ "3." ++ ds ++ post /\
    word_char (last_char None pre) = false /\
    all_chars is_space ws = true /\
    all_chars is_digit ds = true /\ ds <> EmptyString /\
    stops is_word post.

Lemma digit_is_word (c : ascii) : is_word c = false -> is_digit c = false.
Proof.
  unfold is_word, is_digit. destruct (between 48 57 c); [discriminate | reflexivity].
Qed.

Lemma stops_word_digit (s : string) : stops is_word s -> stops is_digit s.
Proof. destruct s as [|c s]; simpl; [trivial | apply digit_is_word]. Qed.

Lemma match_python_version_at_complete (prev : option ascii) (ws ds post : string) :
  word_char prev = false ->
  all_chars is_space ws = true ->
  all_chars is_digit ds = true -> ds <> EmptyString ->
  stops is_word post ->
  match_python_version_at prev ("python" ++ ws ++ "3." ++ ds ++ post) = true.
Proof.
  intros Hp Hws Hds Hne Hpost. unfold match_python_version_at.
  fold (word_char prev). rewrite Hp. cbn [negb andb].
  rewrite skip_prefix_app.
  rewrite (drop_while_app is_space ws) by (assumption || reflexivity).
  rewrite skip_prefix_app.
  rewrite take_while_app by assumption.
  rewrite (drop_while_app is_digit ds post Hds (stops_word_digit _ Hpost)).
  destruct ds as [|c ds]; [contradiction|]. cbn [append truthy andb].
  destruct post as [|d post]; [reflexivity|]. simpl in Hpost. now rewrite Hpost.
Qed.

Lemma match_python_version_at_sound (prev : option ascii) (s : string) :
  match_python_version_at prev s = true ->
  word_char prev = false /\
  exists ws ds post,
    s = "python" ++ ws ++ "3." ++ ds ++ post /\
    all_chars is_space ws = true /\
    all_chars is_digit ds = true /\ ds <> EmptyString /\
    stops is_word post.
Proof.
  unfold match_python_version_at. fold (word_char prev).
  intros H. apply andb_true_iff in H as [Hp H]. apply negb_true_iff in Hp.
  split; [exact Hp|].
  destruct (skip_prefix "python" s) as [r1|] eqn:E1; [|discriminate].
  destruct (skip_prefix "3." (drop_while is_space r1)) as [r2|] eqn:E2; [|discriminate].
  apply andb_true_iff in H as [Hd Hpost].
  apply skip_prefix_Some in E1. apply skip_prefix_Some in E2.
  exists (take_while is_space r1), (take_while is_digit r2), (drop_while is_digit r2).
  split; [|split; [|split; [|split]]].
  - rewrite E1 at 1. f_equal. rewrite (take_drop_while is_space r1) at 1. f_equal.
    rewrite E2. f_equal. apply take_drop_while.
  - apply all_take_while.
  - apply all_take_while.
  - intros E. rewrite E in Hd. discriminate.
  - destruct (drop_while is_digit r2) as [|c r]; [exact I|].
    simpl. now apply negb_true_iff.
Qed.

Lemma search_python_version_here (prev : option ascii) (s : string) :
  match_python_version_at prev s = true -> search_python_version prev s = true.
Proof. intros H. destruct s; simpl; now rewrite H. Qed.

Lemma search_python_version_step (prev : option ascii) (c : ascii) (s : string) :
  search_python_version prev (String c s)
  = (match_python_version_at prev (String c s) || search_python_version (Some c) s)%bool.
Proof. reflexivity. Qed.

Lemma search_python_version_iff (prev : option ascii) (s : string) :
  search_python_version prev s = true <->
  exists pre ws ds post,
    s = pre ++ "python" ++ ws ++ "3." ++ ds ++ post /\
    word_char (last_char prev pre) = false /\
    all_chars is_space ws = true /\
    all_chars is_digit ds = true /\ ds <> EmptyString /\
    stops is_word post.
Proof.
  split.
  - revert prev. induction s as [|c s IH]; intros prev H; simpl in H;
      apply orb_true_iff in H as [H|H]; try discriminate.
    + apply match_python_version_at_sound in H as (Hp & ws & ds & post & E & R).
      exists EmptyString, ws, ds, post. now repeat split.
    + apply match_python_version_at_sound in H as (Hp & ws & ds & post & E & R).
      exists EmptyString, ws, ds, post. now repeat split.
    + destruct (IH _ H) as (pre & ws & ds & post & -> & R).
      now exists (String c pre), ws, ds, post.
  - intros (pre & ws & ds & post & -> & Hp & Hws & Hds & Hne & Hpost).
    revert prev Hp. induction pre as [|c pre IH]; intros prev Hp.
    + apply search_python_version_here.
      now apply match_python_version_at_complete.
    + change (String c pre ++ "python" ++ ws ++ "3." ++ ds ++ post)
        with (String c (pre ++ "python" ++ ws ++ "3." ++ ds ++ post)).
      rewrite search_python_version_step, (IH (Some c) Hp). apply orb_true_r.
Qed.

Lemma existsb_keywords_false (q : string) :
  (forall k, In k deprecation_keywords -> ~ occurs_ci k q) ->
  existsb (fun k => contains k (lower q)) deprecation_keywords = false.
Proof.
  intros H. apply not_true_is_false. intros E.
  apply existsb_exists in E as (k & Hk & Hc).
  apply (H k Hk). now apply occurs_ci_contains.
Qed.

(** The Jira overrides leave the intent alone. *)
Definition no_jira_override (q : string) : Prop :=
  ~ occurs_ci "scrum-" q /\ ~ (occurs_ci "how many" q /\ occurs_ci "ticket" q).

Lemma jira_override_id (q intent : string) :
  no_jira_override q -> jira_override (lower q) intent = intent.
Proof.
  intros [Hs Hc]. unfold jira_override.
  rewrite !occurs_ci_contains in *.
  apply not_true_is_false in Hs. rewrite Hs.
  destruct (contains "how many" (lower q)) eqn:E1, (contains "ticket" (lower q)) eqn:E2;
    try reflexivity.
  exfalso. now apply Hc.
Qed.

Lemma find_first {A : Type} (f : A -> bool) (l1 l2 : list A) (v : A) :
  (forall w, In w l1 -> f w = false) -> f v = true ->
  find f (l1 ++ v :: l2)%list = Some v.
Proof.
  intros H1 Hv. induction l1 as [|w l1 IH]; simpl.
  - now rewrite Hv.
  - rewrite (H1 w) by now left. apply IH. intros x Hx. apply H1. now right.
Qed.

End RouterMore.
Import RouterMore.

(** X1. Whatever the question and whatever the generator replies, the
    intent the router hands to the retrieval step is one of the eight
    canonical names. *)
Theorem router_intent_is_canonical (q reply : string) :
  In (route q reply)
     ["DEPRECATION_INFO"; "DEPRECATION_GAP"; "JIRA_LIST"; "JIRA_DETAIL";
      "JIRA_COUNT"; "BACKLOG_LIST"; "BACKLOG_PICKUP"; "GENERAL"].
Proof. exact (route_canonical q reply). Qed.

(** X2. A question with one of the words "deprecation", "deprecated",
    "pending removal", "removal" or "eol" in it, in any letter case, and
    without a Jira override, is routed to DEPRECATION_INFO whatever the
    generator replies. *)
Theorem deprecation_keyword_wins (k q reply : string) :
  In k ["deprecation"; "deprecated"; "pending removal"; "removal"; "eol"] ->
  occurs_ci k q ->
  no_jira_override q ->
  route q reply = "DEPRECATION_INFO".
Proof.
  intros Hk Ho Hj. apply occurs_ci_contains in Ho.
  rewrite route_valid; rewrite (jira_override_id _ _ Hj);
    rewrite (deprecation_override_keyword k _ _ Hk Ho); reflexivity.
Qed.

Lemma deprecation_keyword_wins_witness :
  route "When is EOL for 3.8?" "JIRA_LIST" = "DEPRECATION_INFO".
Proof.
  apply (deprecation_keyword_wins "eol" "When is EOL for 3.8?" "JIRA_LIST").
  - simpl; tauto.
  - exists "When is ", "EOL", " for 3.8?". split; reflexivity.
  - split; intros H; [|destruct H as [H _]];
      apply occurs_ci_contains in H; vm_compute in H; discriminate.
Defined.

(** X3. A question that mentions "python 3.<digits>" as a word of its
    own, in any letter case, and without a Jira override, is routed to
    DEPRECATION_INFO whatever the generator replies. *)
Theorem python_version_wins (q reply : string) :
  version_mention (lower q) ->
  no_jira_override q ->
  route q reply = "DEPRECATION_INFO".
Proof.
  intros Hv Hj.
  assert (deprecation_override (lower q) (fst (clean_up (strip reply)))
          = "DEPRECATION_INFO") as Hd.
  { unfold deprecation_override.
    rewrite (proj2 (search_python_version_iff None (lower q)) Hv).
    now rewrite orb_true_r. }
  rewrite route_valid; rewrite (jira_override_id _ _ Hj); rewrite Hd; reflexivity.
Qed.

Lemma python_version_wins_witness :
  route "Does Python 3.12 still ship it?" "GENERAL" = "DEPRECATION_INFO".
Proof.
  apply (python_version_wins "Does Python 3.12 still ship it?" "GENERAL").
  - exists "does ", " ", "12", " still ship it?".
    split; [reflexivity|]. split; [reflexivity|]. split; [reflexivity|].
    split; [reflexivity|]. split; [discriminate | reflexivity].
  - split; intros H; [|destruct H as [H _]];
      apply occurs_ci_contains in H; vm_compute in H; discriminate.
Defined.

(** X4. On a question to which no override applies (none of the five
    words, no version of Python 3, no Jira override), the intent is read
    off the reply: it is the first name, in the order of the list of
    valid intents and not in the order of the reply, that the stripped
    reply contains, and GENERAL when it contains none. *)
Theorem reply_decides_without_override (q reply : string) :
  (forall k, In k deprecation_keywords -> ~ occurs_ci k q) ->
  ~ version_mention (lower q) ->
  no_jira_override q ->
  (forall l1 v l2,
      valid_intents = (l1 ++ v :: l2)%list ->
      (forall w, In w l1 -> contains w (strip reply) = false) ->
      contains v (strip reply) = true ->
      route q reply = v) /\
  ((forall w, In w valid_intents -> contains w (strip reply) = false) ->
   route q reply = "GENERAL").
Proof.
  intros Hk Hv Hj.
  assert (no_override q) as Hno.
  { intros intent. rewrite (jira_override_id _ _ Hj). unfold deprecation_override.
    rewrite (existsb_keywords_false q Hk).
    destruct (search_python_version None (lower q)) eqn:E; [|reflexivity].
    exfalso. apply Hv. now apply search_python_version_iff in E. }
  split.
  - intros l1 v l2 El H1 H2.
    assert (clean_up (strip reply) = (v, true)) as Hc.
    { unfold clean_up. rewrite El.
      now rewrite (find_first (fun valid => contains valid (strip reply)) l1 l2 v H1 H2). }
    unfold route. rewrite Hc, Hno. reflexivity.
  - intros Hnone. now apply route_default.
Qed.

Lemma reply_decides_without_override_witness :
  route "show me everything" "It is JIRA_LIST, not DEPRECATION_GAP." = "DEPRECATION_GAP".
Proof.
  refine (proj1 (reply_decides_without_override "show me everything"
                   "It is JIRA_LIST, not DEPRECATION_GAP." _ _ _)
            ["DEPRECATION_INFO"] "DEPRECATION_GAP"
            ["JIRA_LIST"; "JIRA_DETAIL"; "JIRA_COUNT"; "BACKLOG_LIST";
             "BACKLOG_PICKUP"; "GENERAL"] eq_refl _ eq_refl).
  - intros k Hk. simpl in Hk.
    repeat (destruct Hk as [<-|Hk];
            [intros H; apply occurs_ci_contains in H; vm_compute in H; discriminate|]).
    destruct Hk.
  - intros H. apply (search_python_version_iff None) in H. vm_compute in H. discriminate.
  - split; intros H; [|destruct H as [H _]];
      apply occurs_ci_contains in H; vm_compute in H; discriminate.
  - intros w [<-|[]]. reflexivity.
Defined.

(* ------------------------------------------------------------------ *)
(** ** The matcher: tokens, scores and the ranking *)

Module MatcherMore.

Lemma all_chars_impl (p p' : ascii -> bool) (s : string) :
  (forall c, p c = true -> p' c = true) ->
  all_chars p s = true -> all_chars p' s = true.
Proof.
  intros H. induction s as [|c s IH]; simpl; [reflexivity|].
  intros Hs. apply andb_true_iff in Hs as [Hc Hs]. now rewrite (H c Hc), IH.
Qed.

Lemma all_chars_drop_while (p f : ascii -> bool) (s : string) :
  all_chars p s = true -> all_chars p (drop_while f s) = true.
Proof.
  induction s as [|c s IH]; simpl; [reflexivity|].
  intros Hs. destruct (f c); [|exact Hs].
  apply andb_true_iff in Hs as [_ Hs]. now apply IH.
Qed.

Lemma all_chars_rstrip (p : ascii -> bool) (s : string) :
  all_chars p s = true -> all_chars p (rstrip s) = true.
Proof.
  induction s as [|c s IH]; simpl; [reflexivity|].
  intros Hs. apply andb_true_iff in Hs as [Hc Hs]. specialize (IH Hs).
  destruct (rstrip s) as [|c' r].
  - destruct (is_space c); simpl; [reflexivity | now rewrite Hc].
  - simpl in *. now rewrite Hc, IH.
Qed.

Lemma all_chars_strip (p : ascii -> bool) (s : string) :
  all_chars p s = true -> all_chars p (strip s) = true.
Proof. intros H. now apply all_chars_rstrip, all_chars_drop_while. Qed.

(** A character of the class [a-z0-9_.], or a space. *)
Definition token_or_blank (c : ascii) : bool :=
  (is_token_char c || Ascii.eqb c " ")%bool.

Lemma sub_non_token_chars (in_run : bool) (s : string) :
  all_chars token_or_blank (sub_non_token in_run s) = true.
Proof.
  revert in_run. induction s as [|c s IH]; intros in_run; simpl; [reflexivity|].
  destruct (is_token_char c) eqn:E.
  - simpl. unfold token_or_blank at 1. now rewrite E, IH.
  - destruct in_run; [apply IH|]. simpl. now rewrite IH.
Qed.

Lemma token_or_blank_not_space (c : ascii) :
  token_or_blank c = true -> is_space c = false -> is_token_char c = true.
Proof.
  unfold token_or_blank. intros H Hs. apply orb_true_iff in H as [H|H]; [exact H|].
  apply Ascii.eqb_eq in H. subst c. discriminate Hs.
Qed.

(** A word of [split]: not empty, and made of the characters of the text
    that are not spaces. *)
Definition word_of (p : ascii -> bool) (w : string) : Prop :=
  w <> EmptyString /\ all_chars (fun c => (p c && negb (is_space c))%bool) w = true.

Lemma cons_word_words (p : ascii -> bool) (w : string) (ws : list string) :
  all_chars (fun c => (p c && negb (is_space c))%bool) w = true ->
  Forall (word_of p) ws -> Forall (word_of p) (cons_word w ws).
Proof.
  intros Hw Hws. destruct w as [|c w]; simpl; [exact Hws|].
  constructor; [|exact Hws]. split; [discriminate | exact Hw].
Qed.

Lemma split_go_words (p : ascii -> bool) (s : string) :
  all_chars p s = true ->
  all_chars (fun c => (p c && negb (is_space c))%bool) (fst (split_go s)) = true /\
  Forall (word_of p) (snd (split_go s)).
Proof.
  induction s as [|c s IH]; simpl; [now split|].
  intros Hs. apply andb_true_iff in Hs as [Hc Hs].
  destruct (IH Hs) as [Hw Hws]. destruct (split_go s) as [w ws]. simpl in *.
  destruct (is_space c) eqn:E; simpl.
  - split; [reflexivity | now apply cons_word_words].
  - split; [|exact Hws]. now rewrite Hc, E, Hw.
Qed.

Lemma split_words (p : ascii -> bool) (s : string) :
  all_chars p s = true -> Forall (word_of p) (split s).
Proof.
  intros Hs. unfold split. destruct (split_go_words p s Hs) as [Hw Hws].
  destruct (split_go s) as [w ws]. now apply cons_word_words.
Qed.

Lemma mem_false (x : string) (l : list string) : mem x l = false -> ~ In x l.
Proof.
  unfold mem. intros H Hin.
  assert (existsb (String.eqb x) l = true) as E.
  { apply existsb_exists. exists x. split; [exact Hin | apply String.eqb_refl]. }
  congruence.
Qed.

(** *** The score *)

(** The text a token is looked up in. *)
Definition haystack (d : DeprecationInfo) : string :=
  lower (feature d ++ " " ++ or_opt (module d) EmptyString ++ " " ++ description d).

(** What one token adds to the score of [d]. *)
Definition weight (d : DeprecationInfo) (t : string) : nat :=
  if negb (truthy t) then 0
  else if contains t (lower (feature d)) then 5
  else if contains t (haystack d) then 2
  else 0.

Lemma or_str_empty (s : string) : or_str s EmptyString = s.
Proof. now destruct s. Qed.

Lemma hay_is_haystack (d : DeprecationInfo) :
  lower (join " " [or_str (feature d) EmptyString;
                   or_opt (module d) EmptyString;
                   or_str (description d) EmptyString]) = haystack d.
Proof. unfold haystack. cbn [join]. now rewrite !or_str_empty. Qed.

Lemma feature_in_haystack (d : DeprecationInfo) (t : string) :
  contains t (lower (feature d)) = true -> contains t (haystack d) = true.
Proof.
  intros H. apply contains_spec in H as (pre & post & E).
  apply contains_spec. unfold haystack. rewrite lower_app, E.
  exists pre, (post ++ lower (" " ++ or_opt (module d) EmptyString ++ " " ++ description d)).
  now rewrite !StrFacts.app_assoc.
Qed.

Lemma contains_empty_text (t : string) :
  truthy t = true -> contains t EmptyString = false.
Proof. destruct t; [discriminate | reflexivity]. Qed.

Lemma score_step (d : DeprecationInfo) (s : nat) (t : string) :
  (if negb (truthy t) then s
   else
     let s1 := if contains t (haystack d) then s + 2 else s in
     if (truthy (feature d) && contains t (lower (feature d)))%bool
     then s1 + 3 else s1)
  = s + weight d t.
Proof.
  unfold weight. destruct (truthy t) eqn:Et; cbn [negb]; [|lia].
  destruct (contains t (lower (feature d))) eqn:Ef.
  - rewrite (feature_in_haystack d t Ef).
    destruct (feature d) as [|c f] eqn:E; cbn [truthy andb].
    + change (lower EmptyString) with EmptyString in Ef.
      rewrite (contains_empty_text t Et) in Ef. discriminate.
    + cbn zeta. lia.
  - rewrite andb_false_r. cbn zeta. destruct (contains t (haystack d)); lia.
Qed.

Lemma score_weights (tokens : list string) (d : DeprecationInfo) :
  score tokens d = list_sum (map (weight d) tokens).
Proof.
  unfold score. rewrite hay_is_haystack.
  set (f := fun (s : nat) (t : string) =>
              if negb (truthy t) then s
              else
                let s1 := if contains t (haystack d) then s + 2 else s in
                if (truthy (feature d) && contains t (lower (feature d)))%bool
                then s1 + 3 else s1).
  assert (forall a t, f a t = a + weight d t) as Hf by (intros a t; apply score_step).
  clearbody f.
  assert (forall a, fold_left f tokens a = a + list_sum (map (weight d) tokens)) as H.
  { induction tokens as [|t l IH]; intros a; simpl; [lia|]. rewrite IH, Hf. lia. }
  apply H.
Qed.

Lemma weight_bound (d : DeprecationInfo) (t : string) : weight d t <= 5.
Proof.
  unfold weight.
  destruct (negb (truthy t)), (contains t (lower (feature d))), (contains t (haystack d)); lia.
Qed.

Lemma weight_positive (d : DeprecationInfo) (t : string) :
  0 < weight d t <-> t <> EmptyString /\ contains t (haystack d) = true.
Proof.
  unfold weight. destruct t as [|c t]; cbn [truthy negb].
  - split; [lia | intros [H _]; contradiction].
  - destruct (contains (String c t) (lower (feature d))) eqn:Ef.
    + rewrite (feature_in_haystack d _ Ef). split; [now split | lia].
    + destruct (contains (String c t) (haystack d)); split; try lia;
        try (intros [_ H]; discriminate); now split.
Qed.

(** *** The ranking *)

Lemma filter_perm {A : Type} (f : A -> bool) (l l' : list A) :
  Permutation l l' -> Permutation (filter f l) (filter f l').
Proof.
  induction 1 as [|x l l' _ IH|x y l|l l' l'' _ IH1 _ IH2]; simpl.
  - constructor.
  - destruct (f x); [now constructor | exact IH].
  - destruct (f x), (f y); try reflexivity. apply perm_swap.
  - now transitivity (filter f l').
Qed.

Lemma strongly_sorted_app {A : Type} (R : A -> A -> Prop) (l1 l2 : list A) :
  StronglySorted R (l1 ++ l2)%list ->
  forall a b, In a l1 -> In b l2 -> R a b.
Proof.
  induction l1 as [|x l1 IH]; intros H a b Ha Hb; [destruct Ha|].
  simpl in H. apply StronglySorted_inv in H as [Hs Hall].
  destruct Ha as [->|Ha].
  - rewrite Forall_forall in Hall. apply Hall. apply in_or_app. now right.
  - now apply IH.
Qed.

End MatcherMore.
Import MatcherMore.

(** X5. Every token of a question is a non-empty word over the
    characters a-z, 0-9, underscore and dot, and is none of the stop
    words: the test for an empty token in the scoring loop never
    fires. *)
Theorem tokens_are_clean (q t : string) :
  In t (tokenize q) ->
  t <> EmptyString /\
  all_chars is_token_char t = true /\
  ~ In t ["deprecation"; "deprecated"; "remove"; "removal"; "eol"].
Proof.
  unfold tokenize. intros H. apply filter_In in H as [Hin Hstop].
  pose proof (split_words token_or_blank _
                (all_chars_strip _ _ (sub_non_token_chars false q))) as Hw.
  rewrite Forall_forall in Hw. destruct (Hw t Hin) as [Hne Hch].
  split; [exact Hne|]. split.
  - revert Hch. apply all_chars_impl. intros c Hc.
    apply andb_true_iff in Hc as [H1 H2]. apply negb_true_iff in H2.
    now apply token_or_blank_not_space.
  - apply mem_false. now apply negb_true_iff.
Qed.

Lemma tokens_are_clean_witness :
  "typing.io" <> EmptyString /\
  all_chars is_token_char "typing.io" = true /\
  ~ In "typing.io" ["deprecation"; "deprecated"; "remove"; "removal"; "eol"].
Proof.
  apply (tokens_are_clean (lower "Is ASYNCIO--deprecated?? typing.io")).
  simpl. tauto.
Defined.

(** X6. The score of a record is a sum over the tokens: a non-empty token
    found in the lowercased feature adds 5, one found only elsewhere in
    the lowercased "feature module description" text adds 2, any other
    adds nothing. So the score is at most 5 per token, and it is positive
    exactly when some non-empty token occurs in that text. *)
Theorem score_by_token (tokens : list string) (d : DeprecationInfo) :
  score tokens d = list_sum (map (weight d) tokens) /\
  score tokens d <= 5 * List.length tokens /\
  (0 < score tokens d <->
   exists t, In t tokens /\ t <> EmptyString /\
             exists pre post, haystack d = pre ++ t ++ post).
Proof.
  rewrite score_weights. split; [reflexivity|]. split.
  - induction tokens as [|t l IH]; simpl; [lia|].
    pose proof (weight_bound d t). lia.
  - induction tokens as [|t l IH]; simpl.
    + split; [lia | intros (t & [] & _)].
    + split.
      * intros H. destruct (Nat.eq_dec (weight d t) 0) as [E|E].
        -- rewrite E in H. apply IH in H as (u & Hu & R). exists u. split; [now right | exact R].
        -- assert (0 < weight d t) as Hpos by lia.
           apply weight_positive in Hpos as [Hne Hc]. apply contains_spec in Hc.
           exists t. split; [now left | now split].
      * intros (u & [<-|Hu] & Hne & Hc).
        -- apply contains_spec in Hc.
           assert (0 < weight d t) by (apply weight_positive; now split). lia.
        -- assert (0 < list_sum (map (weight d) l)) by (apply IH; now exists u). lia.
Qed.

(** X7. On the FEATURE_SEARCH path every hit is a record of the catalog
    with a positive score; the number of hits is the number of such
    records, or 10 if there are more; and a record of the catalog that is
    not among the hits scores no more than any hit. *)
Theorem hits_are_top_scorers (catalog : list DeprecationInfo) (q : string)
    (target : option string) (hits : list DeprecationInfo) :
  _find_deprecations catalog q = (FEATURE_SEARCH, target, hits) ->
  let sc := score (tokenize (lower q)) in
  (forall d, In d hits -> In d catalog /\ 0 < sc d) /\
  List.length hits
  = Nat.min 10 (List.length (filter (fun d => Nat.ltb 0 (sc d)) catalog)) /\
  (forall d h, In d catalog -> ~ In d hits -> In h hits -> sc d <= sc h).
Proof.
  intros H sc.
  destruct (re_search match_removal_at (lower q)) as [t|] eqn:E.
  { rewrite (find_removal_path catalog q t E) in H. discriminate. }
  rewrite (find_feature_path catalog q E) in H.
  apply (f_equal snd) in H. cbv [snd] in H. fold sc in H.
  set (ranked := filter (fun d => Nat.ltb 0 (sc d)) (sorted_desc sc catalog)) in H.
  assert (forall d, In d ranked <-> In d catalog /\ 0 < sc d) as Hranked.
  { intros d. unfold ranked. rewrite filter_In, Nat.ltb_lt.
    split; intros [Hin Hp]; (split; [|exact Hp]).
    - apply (Permutation_in d (Permutation_sym (sorted_desc_perm sc catalog)) Hin).
    - apply (Permutation_in d (sorted_desc_perm sc catalog) Hin). }
  assert (StronglySorted (desc sc) (firstn 10 ranked ++ skipn 10 ranked)%list) as Hs.
  { rewrite firstn_skipn. apply strongly_sorted_filter, sorted_desc_strongly. }
  subst hits. split; [|split].
  - intros d Hd. apply Hranked. rewrite <- (firstn_skipn 10 ranked).
    apply in_or_app. now left.
  - rewrite length_firstn. f_equal. apply Permutation_length. unfold ranked.
    apply filter_perm. apply Permutation_sym, sorted_desc_perm.
  - intros d h Hd Hnot Hh. destruct (Nat.eq_dec (sc d) 0) as [Hz|Hz]; [lia|].
    assert (In d ranked) as Hin by (apply Hranked; split; [exact Hd | lia]).
    rewrite <- (firstn_skipn 10 ranked) in Hin. apply in_app_or in Hin as [Hin|Hin].
    + contradiction.
    + exact (strongly_sorted_app _ _ _ Hs h d Hh Hin).
Qed.

Lemma hits_are_top_scorers_witness :
  List.length (snd (_find_deprecations catalog "is asyncio deprecated? typing"))
  = Nat.min 10 (List.length
                  (filter (fun d => Nat.ltb 0
                             (score (tokenize (lower "is asyncio deprecated? typing")) d))
                     catalog)).
Proof.
  apply (hits_are_top_scorers catalog "is asyncio deprecated? typing" None _ eq_refl).
Defined.

(* ------------------------------------------------------------------ *)
(** ** The calls of the engine *)

Module CallFacts.

(** The calls the retrieval step may make: the backlog, the tickets of
    all statuses or of one of four fixed statuses, and one ticket by a key
    made of "SCRUM-" and digits. *)
Definition retrieval_call (c : Call) : Prop :=
  match c with
  | GenerateResponse _ _ => False
  | GetTickets st => In st [None; Some "Testing"; Some "Done"; Some "In Progress"; Some "To Do"]
  | GetTicket k =>
      exists ds, k = "SCRUM-" ++ ds /\ ds <> EmptyString /\ all_chars is_digit ds = true
  | GetBacklogTasks => True
  end.

Lemma target_status_range (s : string) :
  In (target_status s) [None; Some "Testing"; Some "Done"; Some "In Progress"; Some "To Do"].
Proof.
  unfold target_status.
  repeat match goal with |- context [if ?b then _ else _] => destruct b end; simpl; tauto.
Qed.

Lemma search_scrum_digits (s ds : string) :
  re_search match_scrum_at s = Some ds ->
  ds <> EmptyString /\ all_chars is_digit ds = true.
Proof.
  intros H. apply re_search_Some in H as (pre & s' & _ & Hm & _).
  apply match_scrum_at_iff in Hm as (rest & _ & Hd & Hne & _). now split.
Qed.

Lemma calls_call_bind {A B : Type} (c : Call) (r : result A) (f : A -> M B) :
  (forall a, calls (f a) = []) -> calls (bind (call c r) f) = [c].
Proof.
  intros H. unfold call, bind, calls. destruct r as [a|e]; [|reflexivity].
  specialize (H a). unfold calls in H. destruct (f a) as [log r]. simpl in *. now rewrite H.
Qed.

(** The call log of [build_context], by intent. *)
Lemma build_context_calls (self : QAEngine) (intent q : string) :
  calls (build_context self intent q) = []
  \/ calls (build_context self intent q) = [GetBacklogTasks]
  \/ calls (build_context self intent q) = [GetTickets None]
  \/ calls (build_context self intent q) = [GetTickets (target_status (lower q))]
  \/ (exists ds, re_search match_scrum_at (lower q) = Some ds /\
                 calls (build_context self intent q) = [GetTicket ("SCRUM-" ++ ds)])
  \/ calls (build_context self intent q) = [GetBacklogTasks; GetTickets None].
Proof.
  unfold build_context.
  destruct (String.eqb intent "DEPRECATION_INFO").
  { left. destruct (_find_deprecations (deprecations self) q) as [[mode target] hits].
    reflexivity. }
  destruct (String.eqb intent "DEPRECATION_GAP").
  { right; left. now apply calls_call_bind. }
  destruct (String.eqb intent "JIRA_LIST").
  { right; right; left. now apply calls_call_bind. }
  destruct (String.eqb intent "JIRA_COUNT").
  { right; right; right; left. now apply calls_call_bind. }
  destruct (String.eqb intent "JIRA_DETAIL").
  { destruct (re_search match_scrum_at (lower q)) as [ds|] eqn:E; [|now left].
    right; right; right; right; left. exists ds. split; [reflexivity|].
    apply calls_call_bind. now intros [t|]. }
  destruct (String.eqb intent "BACKLOG_LIST").
  { right; left. now apply calls_call_bind. }
  destruct (String.eqb intent "BACKLOG_PICKUP"); [|now left].
  unfold call, bind, calls, ret.
  destruct (get_backlog_tasks (gdrive_conn self)) as [tasks|e]; [|now right; left].
  destruct (get_tickets (jira_conn self) None) as [tickets|e];
    right; right; right; right; right; reflexivity.
Qed.

Lemma build_context_calls_allowed (self : QAEngine) (intent q : string) :
  Forall retrieval_call (calls (build_context self intent q)).
Proof.
  destruct (build_context_calls self intent q)
    as [H|[H|[H|[H|[(ds & Hs & H)|H]]]]]; rewrite H.
  - constructor.
  - constructor; [exact I | constructor].
  - constructor; [simpl; tauto | constructor].
  - constructor; [apply target_status_range | constructor].
  - constructor; [|constructor].
    destruct (search_scrum_digits _ _ Hs) as [Hne Hd]. now exists ds.
  - constructor; [exact I|]. constructor; [simpl; tauto | constructor].
Qed.

Lemma build_context_calls_length (self : QAEngine) (intent q : string) :
  List.length (calls (build_context self intent q)) <= 2.
Proof.
  destruct (build_context_calls self intent q)
    as [H|[H|[H|[H|[(ds & Hs & H)|H]]]]]; rewrite H; simpl; lia.
Qed.

Lemma answer_query_run (self : QAEngine) (q : string) :
  answer_query self q
  = match generate_response (llm_client self) (classify_prompt q) (Some system_instruction) with
    | Raise e => ([GenerateResponse (classify_prompt q) (Some system_instruction)], Raise e)
    | Ok (Object type_name _) =>
        ([GenerateResponse (classify_prompt q) (Some system_instruction)],
         Raise (no_attribute type_name "strip"))
    | Ok (Text reply) =>
        match build_context self (route q reply) q with
        | (log, Raise e) =>
            (GenerateResponse (classify_prompt q) (Some system_instruction) :: log, Raise e)
        | (log, Ok ctx) =>
            ((GenerateResponse (classify_prompt q) (Some system_instruction) :: log)
             ++ [GenerateResponse (final_prompt q ctx) (Some final_system_prompt)],
             generate_response (llm_client self) (final_prompt q ctx)
               (Some final_system_prompt))%list
        end
    end.
Proof.
  unfold answer_query, classify, call, bind, ret.
  destruct (generate_response (llm_client self) (classify_prompt q) (Some system_instruction))
    as [[reply|type_name rendering]|e]; [|reflexivity|reflexivity].
  cbn [app]. destruct (build_context self (route q reply) q) as [log [ctx|e]]; reflexivity.
Qed.

End CallFacts.
Import CallFacts.

(** X8. Whatever the intent and the question, the retrieval step makes at
    most two calls, none of them to the generator: it reads the backlog,
    lists the tickets of all statuses or of one of the statuses Testing,
    Done, In Progress and To Do, or looks up one ticket whose key is
    "SCRUM-" and a non-empty run of digits. No text of the question other
    than those digits reaches a connector. *)
Theorem retrieval_calls_are_bounded (self : QAEngine) (intent q : string) :
  List.length (calls (build_context self intent q)) <= 2 /\
  Forall retrieval_call (calls (build_context self intent q)).
Proof.
  split; [apply build_context_calls_length | apply build_context_calls_allowed].
Qed.

(** X9. When [answer_query] returns an answer, the generator was called
    exactly twice: first for the classification, last with the final
    prompt, which carries the question and the context as they are; the
    calls in between are those of the retrieval step for the routed
    intent, and the answer is the generator's second reply. *)
Theorem answer_is_second_reply (self : QAEngine) (q : string) (answer : Reply) :
  outcome (answer_query self q) = Ok answer ->
  exists reply ctx,
    generate_response (llm_client self) (classify_prompt q) (Some system_instruction)
    = Ok (Text reply) /\
    outcome (build_context self (route q reply) q) = Ok ctx /\
    generate_response (llm_client self) (final_prompt q ctx) (Some final_system_prompt)
    = Ok answer /\
    calls (answer_query self q)
    = ([GenerateResponse (classify_prompt q) (Some system_instruction)]
       ++ calls (build_context self (route q reply) q)
       ++ [GenerateResponse (final_prompt q ctx) (Some final_system_prompt)])%list /\
    (exists pre post, final_prompt q ctx = pre ++ q ++ post) /\
    (exists pre, final_prompt q ctx = pre ++ ctx).
Proof.
  rewrite answer_query_run.
  destruct (generate_response (llm_client self) (classify_prompt q) (Some system_instruction))
    as [[reply|type_name rendering]|e]; [|discriminate|discriminate].
  destruct (build_context self (route q reply) q) as [log [ctx|e]] eqn:E; [|discriminate].
  cbn [outcome snd calls fst]. intros H. exists reply, ctx. rewrite E.
  split; [reflexivity|]. split; [reflexivity|]. split; [exact H|].
  split; [reflexivity|]. split.
  - exists "User Query: ", (nl ++ nl ++ "CONTEXT DATA:" ++ nl ++ ctx). reflexivity.
  - exists ("User Query: " ++ q ++ nl ++ nl ++ "CONTEXT DATA:" ++ nl).
    unfold final_prompt. now rewrite !StrFacts.app_assoc.
Qed.

Lemma answer_is_second_reply_witness :
  exists reply ctx,
    generate_response (llm_client (engine (constant_llm "JIRA_LIST")))
      (classify_prompt "list") (Some system_instruction) = Ok (Text reply) /\
    outcome (build_context (engine (constant_llm "JIRA_LIST")) (route "list" reply) "list")
    = Ok ctx /\
    generate_response (llm_client (engine (constant_llm "JIRA_LIST")))
      (final_prompt "list" ctx) (Some final_system_prompt) = Ok (Text "JIRA_LIST") /\
    calls (answer_query (engine (constant_llm "JIRA_LIST")) "list")
    = ([GenerateResponse (classify_prompt "list") (Some system_instruction)]
       ++ calls (build_context (engine (constant_llm "JIRA_LIST")) (route "list" reply) "list")
       ++ [GenerateResponse (final_prompt "list" ctx) (Some final_system_prompt)])%list /\
    (exists pre post, final_prompt "list" ctx = pre ++ "list" ++ post) /\
    (exists pre, final_prompt "list" ctx = pre ++ ctx).
Proof.
  apply (answer_is_second_reply (engine (constant_llm "JIRA_LIST")) "list"
           (Text "JIRA_LIST")).
  reflexivity.
Defined.

(** X10. When the classification returns and a connector raises during
    the retrieval step, [answer_query] ends with that exception: the
    generator is not called a second time, and the log is the
    classification call followed by the calls of the retrieval step. *)
Theorem retrieval_failure_propagates (self : QAEngine) (q reply e : string) :
  generate_response (llm_client self) (classify_prompt q) (Some system_instruction)
  = Ok (Text reply) ->
  outcome (build_context self (route q reply) q) = Raise e ->
  outcome (answer_query self q) = Raise e /\
  calls (answer_query self q)
  = GenerateResponse (classify_prompt q) (Some system_instruction)
    :: calls (build_context self (route q reply) q) /\
  Forall retrieval_call (calls (build_context self (route q reply) q)).
Proof.
  intros Hr Hb. rewrite answer_query_run, Hr.
  pose proof (build_context_calls_allowed self (route q reply) q) as Hc.
  destruct (build_context self (route q reply) q) as [log [ctx|e']];
    cbn [outcome snd calls fst] in *; [discriminate|].
  injection Hb as ->. now repeat split.
Qed.

(** An engine whose backlog cannot be read. *)
Definition offline_drive_engine (llm : LLMClient) : QAEngine :=
  {| jira_conn := mock_jira;
     gdrive_conn := {| get_backlog_tasks := Raise "drive unavailable" |};
     llm_client := llm; deprecations := catalog |}.

Lemma retrieval_failure_propagates_witness :
  outcome (answer_query (offline_drive_engine (constant_llm "BACKLOG_PICKUP"))
             "what can I pick up?") = Raise "drive unavailable" /\
  calls (answer_query (offline_drive_engine (constant_llm "BACKLOG_PICKUP"))
           "what can I pick up?")
  = GenerateResponse (classify_prompt "what can I pick up?") (Some system_instruction)
    :: calls (build_context (offline_drive_engine (constant_llm "BACKLOG_PICKUP"))
                (route "what can I pick up?" "BACKLOG_PICKUP") "what can I pick up?") /\
  Forall retrieval_call
    (calls (build_context (offline_drive_engine (constant_llm "BACKLOG_PICKUP"))
              (route "what can I pick up?" "BACKLOG_PICKUP") "what can I pick up?")).
Proof.
  apply (retrieval_failure_propagates (offline_drive_engine (constant_llm "BACKLOG_PICKUP"))
           "what can I pick up?" "BACKLOG_PICKUP" "drive unavailable");
    reflexivity.
Defined.

(* ------------------------------------------------------------------ *)
(** ** Router and assembler together *)

Module EndToEnd.

Lemma matches_removal_keyword (s : string) :
  matches_removal s -> contains "pending removal" s = true.
Proof.
  intros (pre & ws & ds & post & -> & _).
  apply contains_spec. exists pre, (" in python" ++ ws ++ "3." ++ ds ++ post).
  reflexivity.
Qed.

Lemma build_context_info (self : QAEngine) (q : string) :
  build_context self "DEPRECATION_INFO" q
  = ret (let '(mode, target, hits) := _find_deprecations (deprecations self) q in
         _format_deprecations_context mode target hits).
Proof.
  unfold build_context. cbn [String.eqb Ascii.eqb Bool.eqb].
  now destruct (_find_deprecations (deprecations self) q) as [[mode target] hits].
Qed.

Lemma scrum_route (q reply : string) :
  occurs_ci "scrum-" q -> route q reply = "JIRA_DETAIL".
Proof.
  intros H. apply occurs_ci_contains in H.
  rewrite route_valid; rewrite (jira_override_scrum _ _ H); reflexivity.
Qed.

Lemma search_scrum_found (s : string) :
  has_scrum_key s -> exists ds, re_search match_scrum_at s = Some ds.
Proof.
  intros (pre & ds & post & -> & Hd & Hne).
  eapply re_search_finds. now apply match_scrum_at_complete.
Qed.

End EndToEnd.
Import EndToEnd.

(** X11. A question with "scrum-" in it but no digit right after any
    "scrum-" is still routed to JIRA_DETAIL, and then no ticket is looked
    up: the two generator calls are the only calls, and the context sent
    with the final prompt is the "could not identify ticket key"
    sentence. *)
Theorem ticket_prefix_without_number (self : QAEngine) (q reply : string) :
  occurs_ci "scrum-" q ->
  ~ has_scrum_key (lower q) ->
  generate_response (llm_client self) (classify_prompt q) (Some system_instruction)
  = Ok (Text reply) ->
  let final := final_prompt q "Could not identify ticket key (SCRUM-XXX) in query." in
  answer_query self q
  = ([GenerateResponse (classify_prompt q) (Some system_instruction);
      GenerateResponse final (Some final_system_prompt)],
     generate_response (llm_client self) final (Some final_system_prompt)).
Proof.
  intros Hs Hno Hr final. rewrite answer_query_run, Hr.
  rewrite (scrum_route q reply Hs).
  rewrite detail_run, (search_scrum_None _ Hno). reflexivity.
Qed.

Lemma ticket_prefix_without_number_witness :
  answer_query (engine (constant_llm "GENERAL")) "what is SCRUM-MOCK-NEW?"
  = ([GenerateResponse (classify_prompt "what is SCRUM-MOCK-NEW?") (Some system_instruction);
      GenerateResponse
        (final_prompt "what is SCRUM-MOCK-NEW?"
           "Could not identify ticket key (SCRUM-XXX) in query.")
        (Some final_system_prompt)],
     Ok (Text "GENERAL")).
Proof.
  apply (ticket_prefix_without_number (engine (constant_llm "GENERAL"))
           "what is SCRUM-MOCK-NEW?" "GENERAL").
  - exists "what is ", "SCRUM-", "MOCK-NEW?". split; reflexivity.
  - intros H. apply search_scrum_found in H as [ds H]. vm_compute in H. discriminate.
  - reflexivity.
Defined.

(** X12. A question that matches "pending removal in python 3.<N>" and
    has no Jira override is answered from the removal list whatever the
    generator replies to the classification: no connector is called, and
    the context of the final prompt is the rendering of the records whose
    version-removed field is the captured version. *)
Theorem removal_question_end_to_end (self : QAEngine) (q reply : string) :
  matches_removal (lower q) ->
  no_jira_override q ->
  generate_response (llm_client self) (classify_prompt q) (Some system_instruction)
  = Ok (Text reply) ->
  exists target,
    captured (lower q) target /\
    let ctx := _format_deprecations_context REMOVAL_LIST (Some target)
                 (filter (removed_is target) (deprecations self)) in
    answer_query self q
    = ([GenerateResponse (classify_prompt q) (Some system_instruction);
        GenerateResponse (final_prompt q ctx) (Some final_system_prompt)],
       generate_response (llm_client self) (final_prompt q ctx) (Some final_system_prompt)).
Proof.
  intros Hm Hj Hr. destruct (matches_removal_search _ Hm) as [t Ht].
  exists t. split; [apply leftmost_captured; now apply re_search_Some|].
  intros ctx. rewrite answer_query_run, Hr.
  assert (route q reply = "DEPRECATION_INFO") as ->.
  { rewrite route_valid; rewrite (jira_override_id _ _ Hj);
      rewrite (deprecation_override_keyword "pending removal" _ _
                 ltac:(simpl; tauto) (matches_removal_keyword _ Hm)); reflexivity. }
  rewrite build_context_info, (find_removal_path _ q t Ht). reflexivity.
Qed.

Lemma removal_question_end_to_end_witness :
  exists target,
    captured (lower "What is Pending Removal in Python 3.12?") target /\
    answer_query (engine (constant_llm "JIRA_LIST")) "What is Pending Removal in Python 3.12?"
    = ([GenerateResponse (classify_prompt "What is Pending Removal in Python 3.12?")
          (Some system_instruction);
        GenerateResponse
          (final_prompt "What is Pending Removal in Python 3.12?"
             (_format_deprecations_context REMOVAL_LIST (Some target)
                (filter (removed_is target) catalog)))
          (Some final_system_prompt)],
       Ok (Text "JIRA_LIST")).
Proof.
  apply (removal_question_end_to_end (engine (constant_llm "JIRA_LIST"))
           "What is Pending Removal in Python 3.12?" "JIRA_LIST").
  - exists "what is ", " ", "12", "?".
    split; [reflexivity | split; [reflexivity | split; [reflexivity | discriminate]]].
  - split; intros H; [|destruct H as [H _]];
      apply occurs_ci_contains in H; vm_compute in H; discriminate.
  - reflexivity.
Defined.

(* ------------------------------------------------------------------ *)
(** ** The rendering of the hits *)

Module RenderFacts.

Lemma rstrip_nonspace (c : ascii) (rest : string) :
  is_space c = false -> rstrip (String c rest) <> EmptyString.
Proof.
  intros Hc. simpl. destruct (rstrip rest); [rewrite Hc|]; discriminate.
Qed.

Lemma rstrip_app (a b : string) :
  rstrip b <> EmptyString -> rstrip (a ++ b) = a ++ rstrip b.
Proof.
  intros Hb. induction a as [|x a IH]; [reflexivity|].
  cbn [append rstrip]. rewrite IH.
  destruct (a ++ rstrip b) as [|y r] eqn:E; [|reflexivity].
  destruct a; simpl in E; [contradiction | discriminate].
Qed.

(** The line of a hit starts with a dash and the feature, whatever
    [rstrip] removes at its end. *)
Lemma rstrip_entry (f rest : string) (c : ascii) :
  is_space c = false ->
  exists tail, rstrip ("- " ++ f ++ String " " (String c rest)) = "- " ++ f ++ tail.
Proof.
  intros Hc. exists (" " ++ rstrip (String c rest)).
  replace ("- " ++ f ++ String " " (String c rest))
    with (("- " ++ f ++ " ") ++ String c rest)
    by (cbn [append]; now rewrite StrFacts.app_assoc).
  rewrite rstrip_app by now apply rstrip_nonspace.
  cbn [append]. now rewrite StrFacts.app_assoc.
Qed.

Lemma join_mentions (sep x : string) (l : list string) :
  In x l -> exists pre post, join sep l = pre ++ x ++ post.
Proof.
  induction l as [|y l IH]; intros H; [destruct H|].
  destruct H as [->|H].
  - destruct l as [|z l].
    + exists EmptyString, EmptyString. simpl. now rewrite StrFacts.app_nil_r.
    + exists EmptyString, (sep ++ join sep (z :: l)). reflexivity.
  - destruct (IH H) as (pre & post & E). destruct l as [|z l]; [destruct H|].
    exists (y ++ sep ++ pre), post.
    change (join sep (y :: z :: l)) with (y ++ sep ++ join sep (z :: l)).
    rewrite E. now rewrite !StrFacts.app_assoc.
Qed.

Lemma mentions_after (a x s : string) :
  (exists p q, x = p ++ s ++ q) -> exists p q, a ++ x = p ++ s ++ q.
Proof. intros (p & q & ->). exists (a ++ p), q. now rewrite StrFacts.app_assoc. Qed.

Lemma lines_mention {A : Type} (line : A -> string) (s : A -> string) (l : list A) (d : A) :
  (forall x, exists tail, line x = s x ++ tail) ->
  In d l -> exists pre post, join nl (map line l) = pre ++ s d ++ post.
Proof.
  intros Hline Hd.
  destruct (join_mentions nl (line d) (map line l) (in_map line _ _ Hd)) as (pre & post & E).
  destruct (Hline d) as [tail Ht]. exists pre, (tail ++ post).
  rewrite E, Ht. now rewrite !StrFacts.app_assoc.
Qed.

End RenderFacts.
Import RenderFacts.

(** X13. The context of a deprecation question names every hit: for each
    hit it holds a line that starts with a dash and the feature, in both
    modes; and in REMOVAL_LIST mode it holds the target version, with or
    without hits. *)
Theorem context_names_every_hit (mode : Mode) (target : option string)
    (hits : list DeprecationInfo) :
  (forall d, In d hits ->
     exists pre post,
       _format_deprecations_context mode target hits = pre ++ ("- " ++ feature d) ++ post) /\
  (forall t, mode = REMOVAL_LIST -> target = Some t ->
     exists pre post, _format_deprecations_context mode target hits = pre ++ t ++ post).
Proof.
  split.
  - intros d Hd. destruct hits as [|h hits]; [destruct Hd|].
    destruct mode; unfold _format_deprecations_context.
    + repeat apply mentions_after.
      apply (lines_mention _ (fun d => "- " ++ feature d)); [|exact Hd].
      intros x.
      destruct (rstrip_entry (feature x)
                  (" Deprecated: " ++ or_str (version_deprecated x) "N/A"
                   ++ " | Module: " ++ or_opt (module x) "N/A" ++ nl
                   ++ "  " ++ or_str (description x) EmptyString ++ nl
                   ++ "  " ++ or_opt (url x) EmptyString) "|" eq_refl) as [tail Ht].
      exists tail. rewrite StrFacts.app_assoc. exact Ht.
    + repeat apply mentions_after.
      apply (lines_mention _ (fun d => "- " ++ feature d)); [|exact Hd].
      intros x.
      destruct (rstrip_entry (feature x)
                  ("Deprecated: " ++ or_str (version_deprecated x) "N/A"
                   ++ ", Removed: " ++ or_opt (version_removed x) "N/A" ++ ")"
                   ++ " | Module: " ++ or_opt (module x) "N/A" ++ nl
                   ++ "  " ++ or_str (description x) EmptyString ++ nl
                   ++ "  " ++ or_opt (url x) EmptyString) "(" eq_refl) as [tail Ht].
      exists tail. rewrite StrFacts.app_assoc. exact Ht.
  - intros t -> ->. unfold _format_deprecations_context, fmt_opt.
    destruct hits as [|h hits].
    + now exists "No deprecations found pending removal in Python ", ".".
    + exists "Deprecations pending removal in Python ". eexists. reflexivity.
Qed.

(* ------------------------------------------------------------------ *)
(** ** The engine with the clients of [llm_client.py] *)

Module ClientFacts.
Import Clients.

Lemma classify_prompt_has_classify (q : string) :
  contains "Classify" (classify_prompt q) = true.
Proof.
  apply contains_spec. exists EmptyString, (" this query: '" ++ q ++ "'"). reflexivity.
Qed.

Lemma mock_classification (q : string) (si : option string) :
  generate_response MockLLMClient (classify_prompt q) si = Ok (Text "GENERAL").
Proof.
  unfold MockLLMClient. cbn [generate_response].
  now rewrite classify_prompt_has_classify, orb_true_r.
Qed.

Lemma route_general_reply (q : string) :
  In (route q "GENERAL") ["GENERAL"; "DEPRECATION_INFO"; "JIRA_DETAIL"; "JIRA_COUNT"].
Proof.
  unfold route. change (clean_up (strip "GENERAL")) with ("GENERAL", true).
  cbn [negb andb]. unfold jira_override, deprecation_override.
  repeat match goal with |- context [if ?b then _ else _] => destruct b end;
    simpl; tauto.
Qed.

Lemma ollama_total (post : string -> string -> string -> result (option Reply))
    (model base_url prompt : string) (si : option string) :
  exists v, generate_response (OllamaClient post model base_url) prompt si = Ok v.
Proof.
  unfold OllamaClient. cbn [generate_response].
  match goal with |- context [post ?u ?m ?p] => destruct (post u m p) as [[t|]|e] end;
    eexists; reflexivity.
Qed.

Lemma ollama_dead (post : string -> string -> string -> result (option Reply))
    (model base_url prompt e : string) (si : option string) :
  (forall u m p, post u m p = Raise e) ->
  generate_response (OllamaClient post model base_url) prompt si
  = Ok (Text ("Error calling Ollama: " ++ e)).


Proof. intros H. unfold OllamaClient. cbn [generate_response]. now rewrite H. Qed.

(** What [OllamaClient] hands back for the classification, by what the
    server answered. *)
Lemma ollama_classification (post : string -> string -> string -> result (option Reply))
    (model base_url q : string) :
  generate_response (OllamaClient post model base_url) (classify_prompt q)
    (Some system_instruction)
  = match post (base_url ++ "/api/generate") model (ollama_classify_prompt q) with
    | Ok (Some v) => Ok v
    | Ok None => Ok (Text EmptyString)
    | Raise e => Ok (Text ("Error calling Ollama: " ++ e))
    end.
Proof.
  unfold OllamaClient. cbn [generate_response].
  rewrite given_system_instruction. fold (ollama_classify_prompt q).
  destruct (post (base_url ++ "/api/generate") model (ollama_classify_prompt q))
    as [[v|]|e]; reflexivity.
Qed.

Lemma no_backlog_call (self : QAEngine) (q intent : string) :
  In intent ["GENERAL"; "DEPRECATION_INFO"; "JIRA_DETAIL"; "JIRA_COUNT"] ->
  ~ In GetBacklogTasks (calls (build_context self intent q)).
Proof.
  intros Hi. simpl in Hi. unfold build_context.
  destruct Hi as [<-|[<-|[<-|[<-|[]]]]]; cbn [String.eqb Ascii.eqb Bool.eqb].
  - intros [].
  - destruct (_find_deprecations (deprecations self) q) as [[m t] h]. intros [].
  - destruct (re_search match_scrum_at (lower q)); [|intros []].
    rewrite calls_call_bind by now intros [t|]. intros [E|[]]. discriminate.
  - rewrite calls_call_bind by reflexivity. intros [E|[]]. discriminate.
Qed.

End ClientFacts.
Import ClientFacts.

(** X15. With [MockLLMClient] the classification reply is "GENERAL" for
    every question, so the intent comes from the overrides alone: it is
    GENERAL, DEPRECATION_INFO, JIRA_DETAIL or JIRA_COUNT, and the backlog
    is never read. *)
Theorem mock_client_routes_by_overrides (self : QAEngine) (q : string) :
  llm_client self = Clients.MockLLMClient ->
  outcome (classify self q) = Ok (route q "GENERAL") /\
  In (route q "GENERAL") ["GENERAL"; "DEPRECATION_INFO"; "JIRA_DETAIL"; "JIRA_COUNT"] /\
  ~ In GetBacklogTasks (calls (answer_query self q)).
Proof.
  intros Hc.
  assert (generate_response (llm_client self) (classify_prompt q) (Some system_instruction)
          = Ok (Text "GENERAL")) as Hr by (rewrite Hc; apply mock_classification).
  split; [now rewrite (classify_Ok self q "GENERAL" Hr)|].
  split; [apply route_general_reply|].
  rewrite answer_query_run, Hr.
  pose proof (no_backlog_call self q _ (route_general_reply q)) as Hb.
  destruct (build_context self (route q "GENERAL") q) as [log [ctx|e]];
    cbn [calls fst] in *.
  - intros [E|Hin]; [discriminate|]. apply in_app_or in Hin as [Hin|[E|[]]];
      [contradiction | discriminate].
  - intros [E|Hin]; [discriminate | contradiction].
Qed.

Lemma mock_client_routes_by_overrides_witness :
  outcome (classify (engine Clients.MockLLMClient) "list the backlog files")
  = Ok (route "list the backlog files" "GENERAL") /\
  In (route "list the backlog files" "GENERAL")
     ["GENERAL"; "DEPRECATION_INFO"; "JIRA_DETAIL"; "JIRA_COUNT"] /\
  ~ In GetBacklogTasks (calls (answer_query (engine Clients.MockLLMClient)
                                 "list the backlog files")).
Proof.
  apply (mock_client_routes_by_overrides (engine Clients.MockLLMClient)
           "list the backlog files" eq_refl).
Defined.

(** X16. [OllamaClient.generate_response] never raises: what the server
    sent in the field is handed back unchecked, and a failure of the
    request becomes a text. So with this client [answer_query] ends with
    an exception only when a connector raised, or when the field of the
    reply to the classification held something that is no string, on
    which [strip] raises; and when every request to the server fails with
    [e], the answer handed to the user is the text "Error calling
    Ollama: " and [e], provided the retrieval step goes through. *)
Theorem ollama_errors_become_answers
    (post : string -> string -> string -> result (option Reply))
    (model base_url : string) (self : QAEngine) (q : string) :
  llm_client self = Clients.OllamaClient post model base_url ->
  (forall prompt si, exists v, generate_response (llm_client self) prompt si = Ok v) /\
  (forall e, outcome (answer_query self q) = Raise e ->
     (exists reply, outcome (build_context self (route q reply) q) = Raise e) \/
     (exists type_name rendering,
        post (base_url ++ "/api/generate") model (ollama_classify_prompt q)
        = Ok (Some (Object type_name rendering)) /\
        e = no_attribute type_name "strip")) /\
  (forall type_name rendering,
     post (base_url ++ "/api/generate") model (ollama_classify_prompt q)
     = Ok (Some (Object type_name rendering)) ->
     answer_query self q
     = ([GenerateResponse (classify_prompt q) (Some system_instruction)],
        Raise (no_attribute type_name "strip"))) /\
  (forall e ctx,
     (forall u m p, post u m p = Raise e) ->
     outcome (build_context self (route q ("Error calling Ollama: " ++ e)) q) = Ok ctx ->
     outcome (answer_query self q) = Ok (Text ("Error calling Ollama: " ++ e))).
Proof.
  intros Hc. split; [|split; [|split]].
  - intros prompt si. rewrite Hc. apply ollama_total.
  - intros e H. rewrite answer_query_run, Hc, ollama_classification in H.
    destruct (post (base_url ++ "/api/generate") model (ollama_classify_prompt q))
      as [[[reply|type_name rendering]|]|e0] eqn:Ep.
    + left. exists reply.
      destruct (build_context self (route q reply) q) as [log [ctx|e']];
        cbn [outcome snd] in *; [|now injection H as ->].
      destruct (ollama_total post model base_url (final_prompt q ctx)
                  (Some final_system_prompt)) as [v Hv].
      rewrite Hv in H. discriminate.
    + right. exists type_name, rendering. split; [reflexivity|].
      cbn [outcome snd] in H. now injection H as <-.
    + left. exists EmptyString.
      destruct (build_context self (route q EmptyString) q) as [log [ctx|e']];
        cbn [outcome snd] in *; [|now injection H as ->].
      destruct (ollama_total post model base_url (final_prompt q ctx)
                  (Some final_system_prompt)) as [v Hv].
      rewrite Hv in H. discriminate.
    + left. exists ("Error calling Ollama: " ++ e0).
      destruct (build_context self (route q ("Error calling Ollama: " ++ e0)) q)
        as [log [ctx|e']]; cbn [outcome snd] in *; [|now injection H as ->].
      destruct (ollama_total post model base_url (final_prompt q ctx)
                  (Some final_system_prompt)) as [v Hv].
      rewrite Hv in H. discriminate.
  - intros type_name rendering Hp.
    now rewrite answer_query_run, Hc, ollama_classification, Hp.
  - intros e ctx Hdead Hb. rewrite answer_query_run, Hc.
    rewrite (ollama_dead post model base_url _ e _ Hdead).
    destruct (build_context self (route q ("Error calling Ollama: " ++ e)) q)
      as [log [ctx'|e']]; cbn [outcome snd] in *; [|discriminate].
    apply ollama_dead. exact Hdead.
Qed.

(** A server that answers every request with a reply whose [response]
    field is [null]. *)
Definition null_response : string -> string -> string -> result (option Reply) :=
  fun _ _ _ => Ok (Some (Object "NoneType" "None")).

Lemma ollama_errors_become_answers_witness :
  outcome (answer_query
             (engine (Clients.OllamaClient refused "llama3" "http://localhost:11434"))
             "how many tickets are done?")
  = Ok (Text ("Error calling Ollama: " ++ "Connection refused")) /\
  answer_query (engine (Clients.OllamaClient null_response "llama3" "http://localhost:11434"))
    "how many tickets are done?"
  = ([GenerateResponse (classify_prompt "how many tickets are done?")
        (Some system_instruction)],
     Raise "'NoneType' object has no attribute 'strip'").
Proof.
  split.
  - apply (proj2 (proj2 (proj2 (ollama_errors_become_answers refused "llama3"
             "http://localhost:11434"
             (engine (Clients.OllamaClient refused "llama3" "http://localhost:11434"))
             "how many tickets are done?" eq_refl)))
             "Connection refused" "Found 1 tickets with status 'Done'.").
    + reflexivity.
    + reflexivity.
  - apply (proj1 (proj2 (proj2 (ollama_errors_become_answers null_response "llama3"
             "http://localhost:11434"
             (engine (Clients.OllamaClient null_response "llama3" "http://localhost:11434"))
             "how many tickets are done?" eq_refl)))
             "NoneType" "None").
    reflexivity.
Defined.

(* ================================================================== *)
(** * The connectors and the clients' factory *)

(** ** [src/connectors/jira_connector.py] *)

Module Jira.

(** An issue as the [jira] library returns it: [key], [fields.summary],
    [fields.status.name], [fields.description] and, when the issue has an
    assignee, [fields.assignee.displayName]. *)
Record Issue := {
  issue_key : string;
  issue_summary : string;
  issue_status_name : string;
  issue_description : option string;
  issue_assignee : option string
}.

(** The object [JIRA(server=..., basic_auth=...)]: [search_issues(jql)],
    [issue(key)] and [create_issue(project, summary, description)], each
    of which returns or raises. *)
Record Client := {
  search_issues : string -> result (list Issue);
  issue : string -> result Issue;
  create_issue : option string -> string -> string -> result string
}.

(** The fields [mock_mode] and [jira]: the constructor sets [jira] exactly
    when it leaves [mock_mode] false. *)
Inductive Mode := MockMode | LiveMode (jira : Client).

Record State := {
  server : option string;
  email : option string;
  token : option string;
  project_key : option string;
  mode : Mode
}.

(** Python's [a or b] for two optional strings. *)
Definition or_else (a b : option string) : option string :=
  match given a with Some s => Some s | None => b end.

Section Init.
(** [os.getenv] and the constructor of the [jira] library. *)
Variable getenv : string -> option string.
Variable connect : option string -> option string -> option string -> result Client.

(** [JiraConnector.__init__]; the message printed when the connection
    fails is left out. *)
Definition init (server email token project_key : option string) : State :=
  let server := or_else server (getenv "JIRA_SERVER") in
  let email := or_else email (getenv "JIRA_EMAIL") in
  let self_token := or_else token (getenv "JIRA_TOKEN") in
  let project_key := or_else project_key (getenv "JIRA_PROJECT_KEY") in
  let mode :=
    match given token with
    | None => MockMode
    | Some t =>
        if String.eqb t "MOCK_TOKEN" then MockMode
        else
          match connect server email self_token with
          | Ok client => LiveMode client
          | Raise _ => MockMode
          end
    end in
  {| server := server; email := email; token := self_token;
     project_key := project_key; mode := mode |}.
End Init.

(** The double quote of the JQL text. *)
Definition dq : string := String (ascii_of_nat 34) EmptyString.

Definition to_ticket (i : Issue) : JiraTicket :=
  {| key := issue_key i;
     summary := issue_summary i;
     status := issue_status_name i;
     ticket_description := or_opt (issue_description i) EmptyString;
     assignee := issue_assignee i |}.

(** [JiraConnector.get_tickets] *)
Definition get_tickets (self : State) (st : option string)
  : result (list JiraTicket) :=
  match mode self with
  | MockMode =>
      match given st with
      | Some s => Ok (filter (fun t => String.eqb (lower (status t)) (lower s)) mock_tickets)
      | None => Ok mock_tickets
      end
  | LiveMode jira =>
      let jql := "project = " ++ dq ++ fmt_opt (project_key self) ++ dq in
      let jql :=
        match given st with
        | Some s => jql ++ " AND status = " ++ dq ++ s ++ dq
        | None => jql
        end in
      match search_issues jira jql with
      | Ok issues => Ok (map to_ticket issues)
      | Raise e => Raise e
      end
  end.

(** [JiraConnector.get_ticket] *)
Definition get_ticket (self : State) (k : string) : result (option JiraTicket) :=
  match mode self with
  | MockMode =>
      match get_tickets self None with
      | Ok tickets => Ok (find (fun t => String.eqb (key t) k) tickets)
      | Raise e => Raise e
      end
  | LiveMode jira =>
      match issue jira k with
      | Ok i => Ok (Some (to_ticket i))
      | Raise _ => Ok None
      end
  end.

(** [JiraConnector.create_ticket]; the message printed in mock mode is
    left out. *)
Definition create_ticket (self : State) (summary description : string) : result string :=
  match mode self with
  | MockMode => Ok "SCRUM-MOCK-NEW"
  | LiveMode jira => create_issue jira (project_key self) summary description
  end.

(** The connector as [QAEngine] holds it. *)
Definition connector (self : State) : JiraConnector :=
  Build_JiraConnector (get_tickets self) (get_ticket self).

End Jira.

Module JiraFacts.

Lemma get_ticket_total (self : Jira.State) (k : string) :
  exists r, Jira.get_ticket self k = Ok r.
Proof.
  unfold Jira.get_ticket, Jira.get_tickets. destruct (Jira.mode self) as [|jira].
  - eexists; reflexivity.
  - destruct (Jira.issue jira k); eexists; reflexivity.
Qed.

Lemma get_ticket_mock (self : Jira.State) (k : string) (t : JiraTicket) :
  Jira.mode self = Jira.MockMode ->
  Jira.get_ticket self k = Ok (Some t) -> key t = k /\ In t mock_tickets.
Proof.
  unfold Jira.get_ticket, Jira.get_tickets. intros ->. cbn [given]. intros H.
  assert (find (fun t0 => String.eqb (key t0) k) mock_tickets = Some t) as H'
    by congruence.
  clear H. apply find_some in H' as [Hin He].
  apply String.eqb_eq in He. now split.
Qed.

(** In mock mode the lookup finds every fixture ticket by its key: the
    three keys are different. *)
Lemma get_ticket_mock_finds (self : Jira.State) (t : JiraTicket) :
  Jira.mode self = Jira.MockMode ->
  In t mock_tickets -> Jira.get_ticket self (key t) = Ok (Some t).
Proof.
  unfold Jira.get_ticket, Jira.get_tickets. intros ->. cbn [given].
  intros Hin. simpl in Hin. destruct Hin as [<-|[<-|[<-|[]]]]; reflexivity.
Qed.

End JiraFacts.
Import JiraFacts.

(** X17. [JiraConnector.get_ticket] never raises: in mock mode it
    returns the fixture ticket with exactly the key asked for, and
    nothing only when no fixture ticket has that key; connected, it
    returns the issue found, and nothing when the lookup raises. So with this connector the JIRA_DETAIL context is
    always produced: the "could not identify" sentence, the "not found"
    sentence, or the details of a ticket. *)
Theorem ticket_lookup_never_raises (st : Jira.State) (self : QAEngine) (q k : string) :
  jira_conn self = Jira.connector st ->
  (exists r, get_ticket (jira_conn self) k = Ok r /\
     match Jira.mode st with
     | Jira.MockMode => forall t, r = Some t <-> (In t mock_tickets /\ key t = k)
     | Jira.LiveMode jira =>
         match Jira.issue jira k with
         | Ok i => r = Some (Jira.to_ticket i)
         | Raise _ => r = None
         end
     end) /\
  (exists ctx, outcome (build_context self "JIRA_DETAIL" q) = Ok ctx /\
     (ctx = "Could not identify ticket key (SCRUM-XXX) in query."
      \/ (exists ds, ctx = "Ticket " ++ "SCRUM-" ++ ds ++ " not found.")
      \/ (exists t, ctx = ticket_details t))) /\
  (forall ds, Jira.mode st = Jira.MockMode -> scrum_digits (lower q) ds ->
     (forall t, In t mock_tickets -> key t = "SCRUM-" ++ ds ->
        outcome (build_context self "JIRA_DETAIL" q) = Ok (ticket_details t)) /\
     ((forall t, In t mock_tickets -> key t <> "SCRUM-" ++ ds) ->
        outcome (build_context self "JIRA_DETAIL" q)
        = Ok ("Ticket " ++ "SCRUM-" ++ ds ++ " not found."))).
Proof.
  intros Hc. split; [|split].
  - rewrite Hc. cbn [Jira.connector get_ticket].
    destruct (get_ticket_total st k) as [r Hr]. exists r. split; [exact Hr|].
    destruct (Jira.mode st) as [|jira] eqn:Em.
    + intros t. split.
      * intros ->. destruct (get_ticket_mock st k t Em Hr) as [Hk Hin]. now split.
      * intros [Hin <-]. rewrite (get_ticket_mock_finds st t Em Hin) in Hr.
        now injection Hr as <-.
    + unfold Jira.get_ticket in Hr. rewrite Em in Hr.
      destruct (Jira.issue jira k); now injection Hr as <-.
  - rewrite detail_run. destruct (re_search match_scrum_at (lower q)) as [ds|].
    + rewrite Hc. cbn [Jira.connector get_ticket].
      destruct (get_ticket_total st ("SCRUM-" ++ ds)) as [[t|] Hr]; rewrite Hr.
      * exists (ticket_details t). split; [reflexivity|]. right; right. now exists t.
      * exists (not_found_context ("SCRUM-" ++ ds)). split; [reflexivity|].
        right; left. now exists ds.
    + exists no_key_context. split; [reflexivity | now left].
  - intros ds Em Hd. rewrite detail_run, (search_scrum_Some _ _ Hd), Hc.
    cbn [Jira.connector get_ticket]. split.
    + intros t Hin Hk. rewrite <- Hk, (get_ticket_mock_finds st t Em Hin). reflexivity.
    + intros Hnone. destruct (get_ticket_total st ("SCRUM-" ++ ds)) as [[t|] Hr]; rewrite Hr.
      * destruct (get_ticket_mock st _ t Em Hr) as [Hk Hin]. now destruct (Hnone t Hin).
      * reflexivity.
Qed.

(** A server that knows no issue. *)
Definition empty_server : Jira.Client :=
  {| Jira.search_issues := fun _ => Ok [];
     Jira.issue := fun _ => Raise "Issue Does Not Exist";
     Jira.create_issue := fun _ _ _ => Raise "forbidden" |}.

Definition live_state : Jira.State :=
  {| Jira.server := Some "https://example.atlassian.net"; Jira.email := Some "pm@example.org";
     Jira.token := Some "secret"; Jira.project_key := Some "SCRUM";
     Jira.mode := Jira.LiveMode empty_server |}.

Definition live_engine : QAEngine :=
  {| jira_conn := Jira.connector live_state; gdrive_conn := mock_gdrive;
     llm_client := constant_llm "JIRA_DETAIL"; deprecations := catalog |}.

(** The connector made without a token, and an engine that holds it. *)
Definition mock_state : Jira.State :=
  Jira.init (fun _ => None) (fun _ _ _ => Raise "no server") None None None None.

Definition mock_engine : QAEngine :=
  {| jira_conn := Jira.connector mock_state; gdrive_conn := mock_gdrive;
     llm_client := constant_llm "JIRA_DETAIL"; deprecations := catalog |}.

Lemma ticket_lookup_never_raises_witness :
  (exists r, get_ticket (jira_conn mock_engine) "SCRUM-6" = Ok r /\
     forall t, r = Some t <-> (In t mock_tickets /\ key t = "SCRUM-6")) /\
  (exists ctx, outcome (build_context live_engine "JIRA_DETAIL" "what about scrum-9?") = Ok ctx /\
     (ctx = "Could not identify ticket key (SCRUM-XXX) in query."
      \/ (exists ds, ctx = "Ticket " ++ "SCRUM-" ++ ds ++ " not found.")
      \/ (exists t, ctx = ticket_details t))).
Proof.
  split.
  - apply (proj1 (ticket_lookup_never_raises mock_state mock_engine "show SCRUM-6"
                    "SCRUM-6" eq_refl)).
  - apply (proj1 (proj2 (ticket_lookup_never_raises live_state live_engine
                           "what about scrum-9?" "SCRUM-9" eq_refl))).
Defined.

(** X18. [JiraConnector.__init__] never raises, and it ends in mock mode
    exactly when the [token] argument is missing or empty, is
    "MOCK_TOKEN", or the connection fails; a JIRA_TOKEN of the
    environment alone does not leave mock mode. Connected, the client is
    the one the connection returned, made with the server and e-mail
    given or else those of the environment, and the token given. *)
Theorem jira_mock_mode (getenv : string -> option string)
    (connect : option string -> option string -> option string -> result Jira.Client)
    (server email token project_key : option string) :
  let st := Jira.init getenv connect server email token project_key in
  (Jira.mode st = Jira.MockMode <->
   given token = None \/ token = Some "MOCK_TOKEN" \/
   exists e, connect (Jira.or_else server (getenv "JIRA_SERVER"))
               (Jira.or_else email (getenv "JIRA_EMAIL")) token = Raise e) /\
  (forall client, Jira.mode st = Jira.LiveMode client ->
     connect (Jira.or_else server (getenv "JIRA_SERVER"))
       (Jira.or_else email (getenv "JIRA_EMAIL")) token = Ok client) /\
  (given token = None -> Jira.mode st = Jira.MockMode).
Proof.
  intros st. unfold st, Jira.init. cbn [Jira.mode].
  destruct token as [t|]; cbn [given].
  2:{ split; [|split]; try reflexivity; [tauto | discriminate]. }
  destruct (truthy t) eqn:Et.
  2:{ split; [|split]; try reflexivity; [tauto | discriminate]. }
  assert (Jira.or_else (Some t) (getenv "JIRA_TOKEN") = Some t) as ->
    by (unfold Jira.or_else; cbn [given]; now rewrite Et).
  destruct (String.eqb t "MOCK_TOKEN") eqn:Em.
  { apply String.eqb_eq in Em. subst t.
    split; [|split]; try discriminate. split; [tauto | reflexivity]. }
  apply String.eqb_neq in Em.
  destruct (connect _ _ (Some t)) as [client|e] eqn:Ec.
  - split; [|split]; try discriminate.
    + split; [discriminate|]. intros [H|[H|[e H]]]; [discriminate | congruence | discriminate].
    + now intros c [= <-].
  - split; [|split]; try discriminate.
    split; [|reflexivity]. intros _. right; right. now exists e.
Qed.

(* ------------------------------------------------------------------ *)
(** ** [src/connectors/gdrive_connector.py]: [get_backlog_tasks] *)

Module GDrive.

(** An entry of a [files().list] reply: [id], [name] and [mimeType]. *)
Record File := {
  file_id : string;
  file_name : string;
  mimeType : string
}.

(** The Drive service: [files().list(q=...).execute()] with the [files]
    of the reply (none when the reply has no such field),
    [export_media(fileId, mimeType).execute().decode('utf-8')] and
    [get_media(fileId).execute().decode('utf-8')]. Each returns or
    raises. *)
Record Service := {
  list_files : string -> result (list File);
  export_media : string -> string -> result string;
  get_media : string -> result string
}.

(** The fields [mock_mode] and [service] after the constructor. *)
Inductive Mode := MockMode | LiveMode (service : Service).

Definition folder_query (folder_name : string) : string :=
  "name = '" ++ folder_name ++ "' and mimeType = 'application/vnd.google-apps.folder'".

Definition children_query (folder_id : string) : string :=
  "'" ++ folder_id
  ++ "' in parents and (mimeType = 'text/plain' or mimeType = 'application/vnd.google-apps.document')".

(** The body of the [try] for one file. *)
Definition read_content (service : Service) (file : File) : result string :=
  if String.eqb (mimeType file) "application/vnd.google-apps.document"
  then export_media service (file_id file) "text/plain"
  else get_media service (file_id file).

(** The loop over the files: a file that cannot be read is skipped (its
    message is printed, which is left out). *)
Fixpoint read_tasks (service : Service) (files : list File) : list BacklogTask :=
  match files with
  | [] => []
  | file :: rest =>
      match read_content service file with
      | Ok content =>
          {| title := file_name file; task_description := content;
             source_file := file_name file |} :: read_tasks service rest
      | Raise _ => read_tasks service rest
      end
  end.

Definition mock_tasks : list BacklogTask :=
  [ {| title := "Deprecate old SSL"; task_description := "Remove SSL v2/v3 support";
       source_file := "ssl_notes.txt" |};
    {| title := "New deprecation for email module";
       task_description := "Deprecate old email formats";
       source_file := "email_notes.txt" |} ].

(** [GDriveConnector.get_backlog_tasks]; [getenv_folder] is
    [os.getenv("GDRIVE_FOLDER")]. *)
Definition get_backlog_tasks (mode : Mode) (getenv_folder : option string)
    (folder_name : option string) : result (list BacklogTask) :=
  let folder_name :=
    match folder_name with
    | Some n => n
    | None => match getenv_folder with Some n => n | None => "Deprecation Notes" end
    end in
  match mode with
  | MockMode => Ok mock_tasks
  | LiveMode service =>
      match list_files service (folder_query folder_name) with
      | Raise e => Raise e
      | Ok [] => Ok []
      | Ok (folder :: _) =>
          match list_files service (children_query (file_id folder)) with
          | Raise e => Raise e
          | Ok files => Ok (read_tasks service files)
          end
      end
  end.

(** The connector as [QAEngine] calls it, with the default folder. *)
Definition connector (mode : Mode) (getenv_folder : option string) : GDriveConnector :=
  Build_GDriveConnector (get_backlog_tasks mode getenv_folder None).

End GDrive.

Module GDriveFacts.

(** The task made of a file and its content. *)
Definition task_of (file : GDrive.File) (content : string) : BacklogTask :=
  {| title := GDrive.file_name file; task_description := content;
     source_file := GDrive.file_name file |}.

Lemma read_tasks_spec (service : GDrive.Service) (files : list GDrive.File) (t : BacklogTask) :
  In t (GDrive.read_tasks service files) <->
  exists file content,
    In file files /\ GDrive.read_content service file = Ok content /\ t = task_of file content.
Proof.
  induction files as [|f files IH]; simpl.
  - split; [intros [] | intros (? & ? & [] & _)].
  - destruct (GDrive.read_content service f) as [content|e] eqn:E.
    + simpl. rewrite IH. split.
      * intros [<-|(file & c & Hin & Hr & ->)].
        -- exists f, content. auto.
        -- exists file, c. auto.
      * intros (file & c & [<-|Hin] & Hr & ->).
        -- left. rewrite E in Hr. now injection Hr as <-.
        -- right. now exists file, c.
    + rewrite IH. split.
      * intros (file & c & Hin & Hr & ->). exists file, c. auto.
      * intros (file & c & [<-|Hin] & Hr & ->); [congruence|]. now exists file, c.
Qed.

Lemma read_tasks_length (service : GDrive.Service) (files : list GDrive.File) :
  List.length (GDrive.read_tasks service files) <= List.length files.
Proof.
  induction files as [|f files IH]; simpl; [lia|].
  destruct (GDrive.read_content service f); simpl; lia.
Qed.

Lemma read_tasks_all (service : GDrive.Service) (files : list GDrive.File) :
  (forall f, In f files -> exists c, GDrive.read_content service f = Ok c) ->
  map title (GDrive.read_tasks service files) = map GDrive.file_name files.
Proof.
  induction files as [|f files IH]; intros H; simpl; [reflexivity|].
  destruct (H f (or_introl eq_refl)) as [c ->]. simpl. f_equal.
  apply IH. intros x Hx. apply H. now right.
Qed.

End GDriveFacts.
Import GDriveFacts.

(** X19. Connected, [get_backlog_tasks] raises only when one of the two
    listings raises. When they return, a folder search without result
    gives an empty backlog; otherwise the tasks are the files of the first
    folder whose content could be read, each with the file name as title
    and source and the content as description: a file whose read raises
    is dropped without an exception, so there are never more tasks than
    files, and the titles are the file names in listing order when every
    read goes through. *)
Theorem backlog_skips_unreadable_files (service : GDrive.Service)
    (env_folder folder_name : option string) :
  let run := GDrive.get_backlog_tasks (GDrive.LiveMode service) env_folder folder_name in
  let name :=
    match folder_name with
    | Some n => n
    | None => match env_folder with Some n => n | None => "Deprecation Notes" end
    end in
  match GDrive.list_files service (GDrive.folder_query name) with
  | Raise e => run = Raise e
  | Ok [] => run = Ok []
  | Ok (folder :: _) =>
      match GDrive.list_files service (GDrive.children_query (GDrive.file_id folder)) with
      | Raise e => run = Raise e
      | Ok files =>
          exists tasks,
            run = Ok tasks /\
            (forall t, In t tasks <->
               exists file content,
                 In file files /\ GDrive.read_content service file = Ok content /\
                 t = task_of file content) /\
            List.length tasks <= List.length files /\
            ((forall f, In f files -> exists c, GDrive.read_content service f = Ok c) ->
             map title tasks = map GDrive.file_name files)
      end
  end.
Proof.
  intros run name. unfold run, GDrive.get_backlog_tasks. fold name.
  destruct (GDrive.list_files service (GDrive.folder_query name)) as [[|folder rest]|e];
    try reflexivity.
  destruct (GDrive.list_files service (GDrive.children_query (GDrive.file_id folder)))
    as [files|e]; [|reflexivity].
  exists (GDrive.read_tasks service files). split; [reflexivity|]. split; [|split].
  - intros t. apply read_tasks_spec.
  - apply read_tasks_length.
  - apply read_tasks_all.
Qed.

(* ------------------------------------------------------------------ *)
(** ** [create_llm_client] of [src/ai/llm_client.py] *)

Module Factory.
Import Clients.

Section Create.
(** The transport of [OllamaClient]; the [google.generativeai] module when
    it could be imported, as the function from an API key and a model
    name to the [generate_content] of that model; and
    [os.getenv("GOOGLE_API_KEY")]. *)
Variable post_generate : string -> string -> string -> result (option Reply).
Variable genai : option (string -> string -> string -> result string).
Variable GOOGLE_API_KEY : option string.

(** [GeminiClient.__init__]; [genai.configure] and [GenerativeModel] are
    taken to return. *)
Definition new_gemini (api_key model : string) : result LLMClient :=
  match genai with
  | None => Raise "google-generativeai package is not installed."
  | Some lib => Ok (GeminiClient (lib api_key model))
  end.

(** [create_llm_client(provider, model, **kwargs)]; [url] and [api_key]
    are the keyword arguments of these names, [None] when not given. *)
Definition create_llm_client (provider : string) (model url api_key : option string)
  : result LLMClient :=
  if String.eqb provider "ollama" then
    Ok (OllamaClient post_generate (or_opt model "llama3")
          (match url with Some u => u | None => "http://localhost:11434" end))
  else if String.eqb provider "gemini" then
    match given (Jira.or_else api_key GOOGLE_API_KEY) with
    | None => Raise "GOOGLE_API_KEY is required for Gemini provider"
    | Some k => new_gemini k (or_opt model "gemini-pro")
    end
  else if String.eqb provider "mock" then Ok MockLLMClient
  else Raise ("Unknown LLM provider: " ++ provider).
End Create.

End Factory.

(** X14. [create_llm_client] returns a client exactly for the providers
    "ollama" and "mock", and for "gemini" when an API key is given or set
    in the environment and the Gemini library is installed. Every other
    provider name raises "Unknown LLM provider: " with that name, and the
    Ollama client it makes uses the model "llama3" and the local server
    unless told otherwise. *)
Theorem factory_providers
    (post : string -> string -> string -> result (option Reply))
    (genai : option (string -> string -> string -> result string))
    (env_key : option string) (provider : string) (model url api_key : option string) :
  let made := Factory.create_llm_client post genai env_key provider model url api_key in
  ((exists client, made = Ok client) <->
   provider = "ollama" \/ provider = "mock" \/
   (provider = "gemini" /\ genai <> None /\
    exists k, Jira.or_else api_key env_key = Some k /\ k <> EmptyString)) /\
  (provider <> "ollama" -> provider <> "gemini" -> provider <> "mock" ->
   made = Raise ("Unknown LLM provider: " ++ provider)) /\
  (provider = "ollama" -> model = None -> url = None ->
   made = Ok (Clients.OllamaClient post "llama3" "http://localhost:11434")).
Proof.
  intros made. unfold made, Factory.create_llm_client. split; [|split].
  - destruct (String.eqb provider "ollama") eqn:Eo.
    { apply String.eqb_eq in Eo. split; [tauto | intros _; eexists; reflexivity]. }
    destruct (String.eqb provider "gemini") eqn:Eg.
    { apply String.eqb_eq in Eg. subst provider. unfold Factory.new_gemini.
      destruct (Jira.or_else api_key env_key) as [k|] eqn:Ek; cbn [given].
      - destruct (truthy k) eqn:Et.
        + destruct genai as [lib|].
          * split; [|intros _; eexists; reflexivity].
            intros _. right; right. split; [reflexivity|]. split; [discriminate|].
            exists k. split; [reflexivity|]. intros ->. discriminate.
          * split; [intros [c H]; discriminate|].
            intros [H|[H|(_ & H & _)]]; [discriminate | discriminate | contradiction].
        + split; [intros [c H]; discriminate|].
          intros [H|[H|(_ & _ & k' & [= <-] & Hne)]]; try discriminate.
          destruct k; [contradiction | discriminate].
      - split; [intros [c H]; discriminate|].
        intros [H|[H|(_ & _ & k' & H & _)]]; discriminate. }
    destruct (String.eqb provider "mock") eqn:Em.
    { apply String.eqb_eq in Em. split; [tauto | intros _; eexists; reflexivity]. }
    apply String.eqb_neq in Eo, Eg, Em.
    split; [intros [c H]; discriminate|]. intros [H|[H|[H _]]]; contradiction.
  - intros Ho Hg Hm. apply String.eqb_neq in Ho, Hg, Hm. now rewrite Ho, Hg, Hm.
  - intros -> -> ->. reflexivity.
Qed.

(* ------------------------------------------------------------------ *)
(** ** The loop of [main.py] *)

Module Main.

Definition quit_words : list string := ["quit"; "exit"; "q"].

Definition prompt : string := nl ++ "Your question: ".

(** What is printed after a question; the answer is formatted with its
    [str()]. *)
Definition reply_line (engine : QAEngine) (query : string) : string :=
  match outcome (answer_query engine query) with
  | Ok (Text answer) => nl ++ "Assistant: " ++ answer
  | Ok (Object _ rendering) => nl ++ "Assistant: " ++ rendering
  | Raise e => nl ++ "Error: " ++ e
  end.

(** The [while True] loop of [main] on the lines typed so far: the texts
    written to the terminal, the prompt of each [input] and the text
    printed for each question, until a quit word is typed; after the last
    line typed the program waits at the prompt. The interrupt key is not
    typed. *)
Fixpoint main_loop (engine : QAEngine) (inputs : list string) : list string :=
  match inputs with
  | [] => [prompt]
  | query :: rest =>
      prompt ::
      (if mem (lower query) quit_words then []
       else reply_line engine query :: main_loop engine rest)
  end.

End Main.

(** X20. The loop of [main] answers the questions one by one: a question
    is followed by one line, the answer or, when the engine raised, the
    error, and the loop goes on with the next question; a quit word, in
    any letter case, ends it, and nothing typed after it reaches the
    engine. *)
Theorem main_loop_survives_errors (engine : QAEngine) (questions rest : list string) :
  (forall q, In q questions -> mem (lower q) Main.quit_words = false) ->
  Main.main_loop engine (questions ++ rest)%list
  = (flat_map (fun q => [Main.prompt; Main.reply_line engine q]) questions
     ++ Main.main_loop engine rest)%list /\
  (forall q e, In q questions -> outcome (answer_query engine q) = Raise e ->
     In (nl ++ "Error: " ++ e) (Main.main_loop engine (questions ++ rest)%list)) /\
  (forall w, mem (lower w) Main.quit_words = true ->
     Main.main_loop engine (questions ++ w :: rest)%list
     = (flat_map (fun q => [Main.prompt; Main.reply_line engine q]) questions
        ++ [Main.prompt])%list).
Proof.
  intros Hq.
  assert (forall tail,
            Main.main_loop engine (questions ++ tail)%list
            = (flat_map (fun q => [Main.prompt; Main.reply_line engine q]) questions
               ++ Main.main_loop engine tail)%list) as Hrun.
  { intros tail. induction questions as [|q qs IH]; [reflexivity|].
    cbn [app Main.main_loop flat_map]. rewrite (Hq q) by now left.
    rewrite IH by (intros x Hx; apply Hq; now right). reflexivity. }
  split; [apply Hrun|]. split.
  - intros q e Hin He. rewrite Hrun. apply in_or_app. left.
    apply in_flat_map. exists q. split; [exact Hin|]. right. left.
    unfold Main.reply_line. now rewrite He.
  - intros w Hw. rewrite Hrun. cbn [Main.main_loop]. now rewrite Hw.
Qed.

Lemma main_loop_survives_errors_witness :
  Main.main_loop (offline_drive_engine (constant_llm "BACKLOG_LIST"))
    (["what is in the backlog?"] ++ ["QUIT"; "hello"])%list
  = (flat_map (fun q => [Main.prompt;
                         Main.reply_line (offline_drive_engine (constant_llm "BACKLOG_LIST")) q])
       ["what is in the backlog?"]
     ++ [Main.prompt])%list.
Proof.
  apply (proj2 (proj2 (main_loop_survives_errors
                         (offline_drive_engine (constant_llm "BACKLOG_LIST"))
                         ["what is in the backlog?"] ["hello"]
                         ltac:(intros q [<-|[]]; reflexivity)))).
  reflexivity.
Defined.

(* ------------------------------------------------------------------ *)
(** ** [_sanitize_user_text] of [adk_app/agent.py] *)

Module Agent.

(** The line boundaries of [str.splitlines] below U+0100: LF, VT, FF, CR,
    FS, GS, RS and NEL. *)
Definition is_linebreak (c : ascii) : bool :=
  (between 10 13 c || between 28 30 c || N.eqb (N_of_ascii c) 133)%bool.

(** [s.splitlines()]: a CR followed by a LF is one boundary, and a
    boundary at the very end opens no further line. *)
Fixpoint splitlines (s : string) : list string :=
  match s with
  | EmptyString => []
  | String c s' =>
      if is_linebreak c then
        EmptyString ::
        (if N.eqb (N_of_ascii c) 13 then
           match s' with
           | String d s'' => if N.eqb (N_of_ascii d) 10 then splitlines s'' else splitlines s'
           | EmptyString => []
           end
         else splitlines s')
      else
        match splitlines s' with
        | [] => [String c EmptyString]
        | l :: ls => String c l :: ls
        end
  end.

(** [s.endswith(suffix)] *)
Fixpoint endswith (suffix s : string) : bool :=
  (String.eqb s suffix
   || match s with
      | EmptyString => false
      | String _ s' => endswith suffix s'
      end)%bool.

(** The three backticks of a fence. *)
Definition fence : string :=
  String (ascii_of_nat 96) (String (ascii_of_nat 96) (String (ascii_of_nat 96) EmptyString)).

(** [lines[1:-1]] *)
Definition inner {A : Type} (lines : list A) : list A := removelast (tl lines).

(** [_sanitize_user_text(text)] *)
Definition _sanitize_user_text (text : option string) : string :=
  let t := strip (or_opt text EmptyString) in
  if (startswith fence t && endswith fence t)%bool then
    let lines := splitlines t in
    if Nat.leb 3 (List.length lines) then strip (join nl (inner lines)) else t
  else t.

End Agent.

Module AgentFacts.
Import Agent.

Lemma rstrip_cons (c : ascii) (x : string) :
  rstrip x <> EmptyString -> rstrip (String c x) = String c (rstrip x).
Proof. intros H. cbn [rstrip]. destruct (rstrip x); [contradiction | reflexivity]. Qed.

Lemma rstrip_idem (s : string) : rstrip (rstrip s) = rstrip s.
Proof.
  induction s as [|c s IH]; [reflexivity|].
  destruct (rstrip s) as [|d r] eqn:E.
  - cbn [rstrip]. rewrite E. destruct (is_space c) eqn:Ec; [reflexivity|].
    cbn [rstrip]. now rewrite Ec.
  - rewrite (rstrip_cons c s) by (rewrite E; discriminate). rewrite E.
    rewrite (rstrip_cons c (String d r)) by (rewrite IH; discriminate).
    now rewrite IH.
Qed.

Lemma rstrip_head (c : ascii) (s : string) :
  is_space c = false -> exists r, rstrip (String c s) = String c r.
Proof.
  intros Hc. cbn [rstrip]. destruct (rstrip s) as [|d r]; [rewrite Hc|]; eexists; reflexivity.
Qed.

Lemma strip_idem (s : string) : strip (strip s) = strip s.
Proof.
  unfold strip, lstrip.
  pose proof (stops_drop_while is_space s) as Hs.
  destruct (drop_while is_space s) as [|c x]; [reflexivity|]. simpl in Hs.
  destruct (rstrip_head c x Hs) as [r Hr]. rewrite Hr.
  cbn [drop_while]. rewrite Hs. rewrite <- Hr. apply rstrip_idem.
Qed.

Lemma strip_fixed (c : ascii) (s : string) :
  is_space c = false -> rstrip (String c s) = String c s -> strip (String c s) = String c s.
Proof. intros Hc Hr. unfold strip, lstrip. cbn [drop_while]. now rewrite Hc. Qed.

(** A line without boundary character. *)
Definition one_line (s : string) : Prop :=
  all_chars (fun c => negb (is_linebreak c)) s = true.

Lemma splitlines_one (x : string) :
  one_line x -> x <> EmptyString -> splitlines x = [x].
Proof.
  unfold one_line. induction x as [|c x IH]; [contradiction|].
  intros H _. cbn [all_chars] in H. apply andb_true_iff in H as [Hc Hx].
  apply negb_true_iff in Hc. cbn [splitlines]. rewrite Hc.
  destruct x as [|d x]; [reflexivity|].
  rewrite IH by (assumption || discriminate). reflexivity.
Qed.

Lemma splitlines_cons (x rest : string) :
  one_line x -> splitlines (x ++ nl ++ rest) = x :: splitlines rest.
Proof.
  unfold one_line. induction x as [|c x IH]; intros H.
  - reflexivity.
  - cbn [all_chars] in H. apply andb_true_iff in H as [Hc Hx].
    apply negb_true_iff in Hc. cbn [append splitlines]. rewrite Hc.
    change (x ++ String (ascii_of_nat 10) rest) with (x ++ nl ++ rest).
    now rewrite (IH Hx).
Qed.

Lemma splitlines_join (ls : list string) (last : string) :
  Forall one_line ls -> one_line last -> last <> EmptyString ->
  splitlines (join nl (ls ++ [last])%list) = (ls ++ [last])%list.
Proof.
  intros Hls Hl Hne. induction Hls as [|x ls Hx Hls IH].
  - now apply splitlines_one.
  - cbn [app]. destruct (ls ++ [last])%list as [|y l] eqn:E.
    + destruct ls; discriminate.
    + change (join nl (x :: y :: l)) with (x ++ nl ++ join nl (y :: l)).
      rewrite splitlines_cons by assumption. now rewrite IH.
Qed.

Lemma endswith_app (a suffix : string) : endswith suffix (a ++ suffix) = true.
Proof.
  induction a as [|c a IH].
  - destruct suffix; cbn [append endswith]; now rewrite String.eqb_refl.
  - cbn [append endswith]. rewrite IH. apply orb_true_r.
Qed.

Lemma join_last (sep : string) (ls : list string) (last : string) :
  exists a, join sep (ls ++ [last])%list = a ++ last.
Proof.
  induction ls as [|x ls [a IH]].
  - now exists EmptyString.
  - cbn [app]. destruct (ls ++ [last])%list as [|y l] eqn:E.
    + destruct ls; discriminate.
    + exists (x ++ sep ++ a).
      change (join sep (x :: y :: l)) with (x ++ sep ++ join sep (y :: l)).
      rewrite IH. now rewrite !StrFacts.app_assoc.
Qed.

End AgentFacts.
Import AgentFacts.

(** X21. The text [_sanitize_user_text] returns has no white space at
    either end, whatever it is given ([None] included): stripping it
    again changes nothing. A text that, once stripped, does not both
    start and end with three backticks is returned stripped and
    otherwise unchanged. *)
Theorem sanitized_text_is_stripped (text : option string) :
  strip (Agent._sanitize_user_text text) = Agent._sanitize_user_text text /\
  ((startswith Agent.fence (strip (or_opt text EmptyString))
    && Agent.endswith Agent.fence (strip (or_opt text EmptyString)))%bool = false ->
   Agent._sanitize_user_text text = strip (or_opt text EmptyString)).
Proof.
  unfold Agent._sanitize_user_text. split.
  - destruct (startswith _ _ && Agent.endswith _ _)%bool; [|apply strip_idem].
    destruct (Nat.leb 3 _); apply strip_idem.
  - now intros ->.
Qed.

(** X22. A fenced block is unwrapped: for a text made of an opening line
    that starts with three backticks, at least one body line, and a
    closing line of three backticks, joined by line feeds (no line
    holding a line boundary itself), the result is the body, its lines
    joined by line feeds and stripped. With no body line the text is
    returned as it is, fences included. *)
Theorem fenced_block_is_unwrapped (lang : string) (body : list string) :
  AgentFacts.one_line lang -> Forall AgentFacts.one_line body ->
  let text := join nl ((Agent.fence ++ lang)%string :: body ++ [Agent.fence])%list in
  (body <> [] -> Agent._sanitize_user_text (Some text) = strip (join nl body)) /\
  (body = [] -> Agent._sanitize_user_text (Some text) = text).
Proof.
  intros Hlang Hbody text.
  assert (AgentFacts.one_line (Agent.fence ++ lang)) as Hopen.
  { unfold AgentFacts.one_line in *. cbn [Agent.fence append all_chars]. now rewrite Hlang. }
  assert (Agent.splitlines text = ((Agent.fence ++ lang)%string :: body ++ [Agent.fence])%list)
    as Hlines.
  { unfold text. change ((Agent.fence ++ lang)%string :: body ++ [Agent.fence])%list
      with (((Agent.fence ++ lang)%string :: body) ++ [Agent.fence])%list.
    apply splitlines_join; [now constructor | reflexivity | discriminate]. }
  assert (exists a, text = a ++ Agent.fence) as [a Ha].
  { unfold text. change ((Agent.fence ++ lang)%string :: body ++ [Agent.fence])%list
      with (((Agent.fence ++ lang)%string :: body) ++ [Agent.fence])%list.
    apply join_last. }
  assert (exists b, text = Agent.fence ++ b) as [b Hb].
  { unfold text. destruct (body ++ [Agent.fence])%list as [|y l] eqn:E.
    - destruct body; discriminate.
    - exists (lang ++ nl ++ join nl (y :: l)).
      change (join nl ((Agent.fence ++ lang)%string :: y :: l))
        with ((Agent.fence ++ lang) ++ nl ++ join nl (y :: l)).
      now rewrite StrFacts.app_assoc. }
  assert (strip text = text) as Hstrip.
  { rewrite Hb. cbn [Agent.fence append].
    apply strip_fixed; [reflexivity|].
    change (String (ascii_of_nat 96) (String (ascii_of_nat 96) (String (ascii_of_nat 96) b)))
      with (Agent.fence ++ b).
    rewrite <- Hb, Ha. rewrite rstrip_app; [reflexivity | discriminate]. }
  assert (Agent._sanitize_user_text (Some text)
          = if Nat.leb 3 (List.length (Agent.splitlines text))
            then strip (join nl (Agent.inner (Agent.splitlines text))) else text) as Hrun.
  { unfold Agent._sanitize_user_text.
    assert (or_opt (Some text) EmptyString = text) as ->.
    { cbn [or_opt]. unfold or_str. rewrite Hb. reflexivity. }
    rewrite Hstrip.
    rewrite (proj2 (startswith_spec Agent.fence text)) by now exists b.
    rewrite Ha at 1. now rewrite endswith_app. }
  rewrite Hrun, Hlines. split.
  - intros Hne. destruct body as [|x body]; [contradiction|].
    cbn [List.length app Nat.leb]. rewrite List.length_app. cbn [List.length].
    replace (List.length body + 1) with (S (List.length body)) by lia.
    cbn [Nat.leb]. unfold Agent.inner. cbn [tl].
    change (x :: body ++ [Agent.fence])%list with ((x :: body) ++ [Agent.fence])%list.
    now rewrite removelast_last.
  - intros ->. reflexivity.
Qed.

Lemma fenced_block_is_unwrapped_witness :
  Agent._sanitize_user_text
    (Some (join nl [Agent.fence ++ "tool_code"; "  how many tickets?  "; Agent.fence]))
  = "how many tickets?".
Proof.
  apply (proj1 (fenced_block_is_unwrapped "tool_code" ["  how many tickets?  "]
                  eq_refl ltac:(repeat constructor))).
  discriminate.
Defined.
